(** * Terminal Buddy shell runner: a shallow embedding of
      [contents/scripts/shell_runner.py] and its specification.

    Python values are modelled as the code uses them: a [str] is a sequence
    of Unicode code points, an [int] is a [Z], the payload dictionaries that
    are printed as JSON are finite maps from field names to values, and the
    calls that touch the outside world (the history file, the environment,
    the child process, standard output) run in a small state-and-exception
    monad over a [World]. *)

From Stdlib Require Import ZArith NArith Lia String Ascii DecimalString Floats.
From stdpp Require Import base decidable option list numbers strings gmap.

Set Warnings "-register-all".
#[local] Open Scope Z_scope.

(** ** Python strings *)

(** A Python [str]: the sequence of its code points. *)
Definition pystr : Type := list N.

(** The [str] denoted by an ASCII literal of the source. *)
Definition lit (s : string) : pystr :=
  (λ a, N_of_ascii a) <$> list_ascii_of_string s.

(** [bool(s)] for a string: non-empty. *)
Definition str_truthy (s : pystr) : bool :=
  match s with [] => false | _ :: _ => true end.

(** [str.isspace] on one code point (the Unicode White_Space set that
    CPython's [str.strip()] removes). *)
Definition py_isspace (c : N) : bool :=
  let c := Z.of_N c in
  ((9 <=? c) && (c <=? 13)) || ((28 <=? c) && (c <=? 32))
  || (c =? 133) || (c =? 160) || (c =? 5760)
  || ((8192 <=? c) && (c <=? 8202))
  || (c =? 8232) || (c =? 8233) || (c =? 8239) || (c =? 8287) || (c =? 12288).

Fixpoint lstrip (s : pystr) : pystr :=
  match s with
  | c :: s' => if py_isspace c then lstrip s' else s
  | [] => []
  end.

Definition rstrip (s : pystr) : pystr := reverse (lstrip (reverse s)).

(** [s.strip()] *)
Definition py_strip (s : pystr) : pystr := rstrip (lstrip s).

Definition is_ascii (c : N) : bool := (c <? 128)%N.

Definition ascii_lower (c : N) : N :=
  if ((65 <=? c) && (c <=? 90))%N then (c + 32)%N else c.

(** ** Exceptions *)

Inductive exc_class : Type :=
| BaseException | KeyboardInterrupt
| Exception
| OSError | PermissionError | FileNotFoundError | FileExistsError
| IsADirectoryError | NotADirectoryError
| ValueError | UnicodeError | UnicodeDecodeError | UnicodeEncodeError
| JSONDecodeError | BinasciiError
| TypeError | RecursionError | MemoryError.

#[global] Instance exc_class_eq_dec : EqDecision exc_class.
Proof. solve_decision. Defined.

(** The direct base class, as in Python's built-in hierarchy
    ([json.JSONDecodeError] and [binascii.Error] derive from [ValueError]). *)
Definition base_class (c : exc_class) : option exc_class :=
  match c with
  | BaseException => None
  | KeyboardInterrupt | Exception => Some BaseException
  | OSError | ValueError | TypeError | RecursionError | MemoryError =>
      Some Exception
  | PermissionError | FileNotFoundError | FileExistsError
  | IsADirectoryError | NotADirectoryError => Some OSError
  | UnicodeError | JSONDecodeError | BinasciiError => Some ValueError
  | UnicodeDecodeError | UnicodeEncodeError => Some UnicodeError
  end.

Fixpoint ancestors (fuel : nat) (c : exc_class) : list exc_class :=
  c :: match fuel, base_class c with
       | S fuel', Some p => ancestors fuel' p
       | _, _ => []
       end.

(** [issubclass(c, d)]; the hierarchy is at most five classes deep. *)
Definition issubclass (c d : exc_class) : bool :=
  bool_decide (d ∈ ancestors 5 c).

(** A raised exception: its class and the text [str(e)] gives. *)
Record exn : Type := mkExn { exn_class : exc_class; exn_msg : pystr }.

(** [except (c1, c2, ...)]: does the clause catch [e]? *)
Definition caught_by (classes : list exc_class) (e : exn) : bool :=
  existsb (issubclass (exn_class e)) classes.

Inductive res (A : Type) : Type :=
| Ok (a : A)
| Raise (e : exn).
Arguments Ok {A} a.
Arguments Raise {A} e.

#[global] Instance res_ret : MRet res := λ A a, Ok a.

#[global] Instance res_bind : MBind res := λ A B f r,
  match r with
  | Ok a => f a
  | Raise e => Raise e
  end.

(** [try: body / except classes: handler] on a pure computation. *)
Definition try_except {A} (body : res A) (classes : list exc_class)
    (handler : exn → res A) : res A :=
  match body with
  | Ok a => Ok a
  | Raise e => if caught_by classes e then handler e else Raise e
  end.

(** ** Values *)

(** What [json.load] can return. An object is the [dict] built from its
    members, in insertion order and with distinct keys. *)
Inductive json : Type :=
| JNull
| JBool (b : bool)
| JInt (z : Z)
| JFloat (f : float)
| JStr (s : pystr)
| JList (items : list json)
| JDict (members : list (pystr * json)).

(** [d.get(key, default)] *)
Fixpoint dict_get (key : pystr) (members : list (pystr * json))
    (default : json) : json :=
  match members with
  | [] => default
  | (k, v) :: rest =>
      if bool_decide (k = key) then v else dict_get key rest default
  end.

(** [bool(v)] *)
Definition py_truthy (v : json) : bool :=
  match v with
  | JNull => false
  | JBool b => b
  | JInt z => negb (z =? 0)
  | JFloat f => negb (PrimFloat.eqb f 0%float)
  | JStr s => str_truthy s
  | JList items => match items with [] => false | _ => true end
  | JDict members => match members with [] => false | _ => true end
  end.

(** The values stored in the dictionaries the program prints. *)
Inductive pyval : Type :=
| VStr (s : pystr)
| VInt (z : Z)
| VList (items : list pystr).

#[global] Instance pyval_eq_dec : EqDecision pyval.
Proof. solve_decision. Defined.

(** A response dictionary ([Dict[str, Any]] with literal keys). *)
Abbreviation payload := (gmap string pyval).

(** A surrogate code point: the one kind of code point the UTF-8 codec
    refuses to encode. *)
Definition surrogate (c : N) : bool := ((55296 <=? c) && (c <=? 57343))%N.

(** The string can be written to a UTF-8 text stream. *)
Definition encodable (s : pystr) : bool :=
  forallb (λ c, negb (surrogate c)) s.

Definition pyval_encodable (v : pyval) : bool :=
  match v with
  | VStr s => encodable s
  | VInt _ => true
  | VList items => forallb encodable items
  end.

(** Every string of the dictionary can be written (its keys are ASCII
    literals of the source). *)
Definition payload_encodable (p : payload) : bool :=
  forallb (λ member, pyval_encodable member.2) (map_to_list p).

(** What one [emit] call leaves on standard output: the whole line, or,
    when [json.dump] raised on the way, the part of the line written
    before the string that could not be encoded. *)
Inductive output : Type :=
| Printed (p : payload)
| Truncated (p : payload).

(** ** Library functions the program calls

    Their results depend on the interpreter's Unicode tables and on the
    version of the standard library, so the embedding takes them as an
    interface. [reference_lib] below is an executable instance. *)
Class PyLib : Type := {
  (** [base64.b64decode(s)] for a [str] argument: the bytes, or the raised
      exception *)
  b64decode : pystr → res (list N);
  (** [b.decode("utf-8", errors="ignore")] *)
  utf8_decode_ignore : list N → pystr;
  (** [s.lower()] for a string that has a non-ASCII code point *)
  unicode_lower : pystr → pystr;
  (** [str(v)] for a float, a list or a dict *)
  py_repr : json → pystr
}.

Section Builtins.
Context `{PyLib}.

(** [s.lower()] *)
Definition py_lower (s : pystr) : pystr :=
  if forallb is_ascii s then ascii_lower <$> s else unicode_lower s.

(** [str(v)] *)
Definition py_str (v : json) : pystr :=
  match v with
  | JStr s => s
  | JNull => lit "None"
  | JBool true => lit "True"
  | JBool false => lit "False"
  | JInt z => lit (NilEmpty.string_of_int (Z.to_int z))
  | JFloat _ | JList _ | JDict _ => py_repr v
  end.

End Builtins.

(** ** The world outside the process *)

(** What [subprocess.run(..., capture_output=True, text=True)] returns. *)
Record CompletedProcess : Type := mkCompleted {
  cp_stdout : pystr;
  cp_stderr : pystr;
  cp_returncode : Z
}.

(** The history file at [HISTORY_FILE]: absent, or present, in which case
    [content] is what opening it for reading and [json.load] produce: the
    decoded value or the exception raised on the way ([OSError] when it
    cannot be opened or read, [UnicodeDecodeError] when its bytes are not
    UTF-8, [json.JSONDecodeError] when the text is not JSON); or
    unsearchable, when the path cannot be examined and
    [HISTORY_FILE.exists()] itself raises [e] (a [PermissionError] for a
    storage directory without search permission). *)
Inductive file_state : Type :=
| Absent
| Present (content : res json)
| Unsearchable (e : exn).

(** What the program can observe of its surroundings, and what it has done
    to them. Standard output is the interpreter's UTF-8 text stream, open
    and accepting what can be encoded. *)
Record World : Type := mkWorld {
  (** [os.environ.get] *)
  environ : string → option pystr;
  (** [Path(p).exists()] for a shell path: the answer, or the [OSError]
      the probe raises (a path that is too long, a directory that cannot
      be searched) *)
  path_exists : pystr → res bool;
  history_file : file_state;
  (** the exception [HISTORY_DIR.mkdir(parents=True, exist_ok=True)] raises,
      if it fails *)
  mkdir_failure : option exn;
  (** the exception opening the history file for writing or [json.dump]
      raises, if it fails, and the state the file is left in *)
  write_failure : option (exn * file_state);
  (** [subprocess.run(command, shell=True, executable=shell, ...)]: its
      outcome and what the child process did to the history file *)
  subprocess_run : pystr → pystr → file_state →
                   res CompletedProcess * file_state;
  (** the [subprocess.run] calls made so far: (command, executable) *)
  spawned : list (pystr * pystr);
  (** what the [emit] calls have left on standard output so far *)
  stdout : list output
}.

Definition set_history_file (fs : file_state) (w : World) : World :=
  mkWorld (environ w) (path_exists w) fs (mkdir_failure w) (write_failure w)
          (subprocess_run w) (spawned w) (stdout w).

Definition set_spawned (l : list (pystr * pystr)) (w : World) : World :=
  mkWorld (environ w) (path_exists w) (history_file w) (mkdir_failure w)
          (write_failure w) (subprocess_run w) l (stdout w).

Definition set_stdout (l : list output) (w : World) : World :=
  mkWorld (environ w) (path_exists w) (history_file w) (mkdir_failure w)
          (write_failure w) (subprocess_run w) (spawned w) l.

(** ** Computations: world passing with exceptions *)

Definition M (A : Type) : Type := World → res A * World.

#[global] Instance M_ret : MRet M := λ A a w, (Ok a, w).

#[global] Instance M_bind : MBind M := λ A B f m w,
  match m w with
  | (Ok a, w') => f a w'
  | (Raise e, w') => (Raise e, w')
  end.

(** Lift a pure computation that may raise. *)
Definition lift {A} (r : res A) : M A := λ w, (r, w).

(** [try: body / except classes: handler] *)
Definition try_catch {A} (body : M A) (classes : list exc_class)
    (handler : exn → M A) : M A := λ w,
  match body w with
  | (Ok a, w') => (Ok a, w')
  | (Raise e, w') =>
      if caught_by classes e then handler e w' else (Raise e, w')
  end.

Definition modify_world (f : World → World) : M unit := λ w, (Ok (), f w).

(** ** HistoryStore *)

(** The history dictionary. [load_history] always builds it with both keys,
    a list of strings under "history" and a string under "last_command", so
    the look-ups [history.get("history", ...)] and
    [history.get("last_command", ...)] never fall back to their defaults and
    are the fields [history] and [last_command]. *)
Record HistoryRecord : Type := mkHistory {
  last_command : pystr;
  history : list pystr
}.

(** [DEFAULT_HISTORY]. Every use is [DEFAULT_HISTORY.copy()], and the shared
    list under ["history"] is never mutated in place. *)
Definition DEFAULT_HISTORY : HistoryRecord := mkHistory [] [].

Definition MAX_HISTORY_DEFAULT : Z := 100.

(** What [json.dump(history, handle, ...)] writes, as [json.load] reads it
    back. *)
Definition history_to_json (h : HistoryRecord) : json :=
  JDict [(lit "last_command", JStr (last_command h));
         (lit "history", JList (JStr <$> history h))].

(** [HISTORY_FILE.exists()] *)
Definition history_file_exists : M bool := λ w,
  (match history_file w with
   | Absent => Ok false
   | Present _ => Ok true
   | Unsearchable e => Raise e
   end, w).

(** [with HISTORY_FILE.open("r", encoding="utf-8") as handle:
       data = json.load(handle)] *)
Definition read_history_file : M json := λ w,
  match history_file w with
  | Absent =>
      (Raise (mkExn FileNotFoundError (lit "No such file or directory")), w)
  | Present content => (content, w)
  | Unsearchable e => (Raise e, w)
  end.

(** [HISTORY_DIR.mkdir(parents=True, exist_ok=True)] *)
Definition mkdir_history_dir : M unit := λ w,
  match mkdir_failure w with
  | Some e => (Raise e, w)
  | None => (Ok (), w)
  end.

(** [with HISTORY_FILE.open("w", encoding="utf-8") as handle:
       json.dump(history, handle, indent=2, ensure_ascii=False)] *)
Definition write_history_file (h : HistoryRecord) : M unit := λ w,
  match write_failure w with
  | Some (e, fs) => (Raise e, set_history_file fs w)
  | None => (Ok (), set_history_file (Present (Ok (history_to_json h))) w)
  end.

(** [subprocess.run(command, shell=True, executable=shell_path,
                   capture_output=True, text=True, check=False)] *)
Definition run_subprocess (command shell_path : pystr) : M CompletedProcess :=
  λ w,
  let '(outcome, fs) := subprocess_run w command shell_path (history_file w) in
  (outcome,
   set_history_file fs (set_spawned (spawned w ++ [(command, shell_path)]) w)).

(** [emit]: the payload is printed as one line of JSON.
    [json.dump(payload, sys.stdout, ensure_ascii=False)] writes the text
    piece by piece, so a string that cannot be encoded raises
    [UnicodeEncodeError] after the pieces before it were written. *)
Definition emit (p : payload) : M unit := λ w,
  if payload_encodable p
  then (Ok (), set_stdout (stdout w ++ [Printed p]) w)
  else (Raise (mkExn UnicodeEncodeError (lit "surrogates not allowed")),
        set_stdout (stdout w ++ [Truncated p]) w).

(** ** ShellResolver *)

(** [a or b] on optional strings ([None] and the empty string are
    falsy). *)
Definition py_or (a b : option pystr) : option pystr :=
  match a with
  | Some s => if str_truthy s then a else b
  | None => b
  end.

Definition candidates : list pystr :=
  [lit "/usr/bin/zsh"; lit "/usr/bin/fish"; lit "/usr/bin/bash";
   lit "/bin/bash"; lit "/bin/zsh"; lit "/bin/fish"; lit "/bin/sh"].

(** [os.environ.get(name)] *)
Definition getenv (name : string) : M (option pystr) := λ w,
  (Ok (environ w name), w).

(** [Path(p).exists()] *)
Definition probe (p : pystr) : M bool := λ w, (path_exists w p, w).

(** The [for candidate in candidates] loop with its fall-through. *)
Fixpoint first_existing (l : list pystr) : M pystr :=
  match l with
  | candidate :: rest =>
      probe candidate ≫= λ found : bool,
      if found then mret candidate else first_existing rest
  | [] => mret (lit "/bin/sh")
  end.

(** [TERMINAL_BUDDY_SHELL] is read before [SHELL], and a path is probed
    only when it is a non-empty string. *)
Definition detect_shell : M pystr :=
  override ← getenv "TERMINAL_BUDDY_SHELL";
  login ← getenv "SHELL";
  match py_or override login with
  | Some env_shell =>
      if str_truthy env_shell then
        probe env_shell ≫= λ found : bool,
        if found then mret env_shell else first_existing candidates
      else first_existing candidates
  | None => first_existing candidates
  end.

(** ** History update *)

(** [l[:stop]] with Python's treatment of a negative [stop]. *)
Definition slice_to {A} (l : list A) (stop : Z) : list A :=
  if stop <? 0 then take (Z.to_nat (Z.max 0 (Z.of_nat (length l) + stop))) l
  else take (Z.to_nat stop) l.

(** The dictionary is mutated in place and nothing is returned; here the
    mutated dictionary is the result. *)
Definition update_history (h : HistoryRecord) (command : pystr) (limit : Z)
    : HistoryRecord :=
  let commands := filter (λ entry, entry ≠ command) (history h) in
  let commands := command :: commands in
  mkHistory command (slice_to commands limit).

(** ** Command line *)

(** How the process ends: with an exit status, or killed by a signal. *)
Inductive termination : Type :=
| Exited (status : Z)
| Killed (signal : Z).

(** The namespace [parse_args] returns. *)
Record Args : Type := mkArgs {
  args_run : bool;
  args_encoded : option pystr;
  args_command : option pystr;
  args_history : bool;
  args_max_history : Z
}.

(** The dictionary [main] prints for [--history]. *)
Definition history_payload (hist : HistoryRecord) (shell : pystr) : payload :=
  list_to_map
    [("type", VStr (lit "history"));
     ("history", VList (history hist));
     ("last_command", VStr (last_command hist));
     ("shell", VStr shell)].

(** The dictionary [main] prints when neither flag is given. *)
Definition error_payload : payload :=
  list_to_map
    [("type", VStr (lit "error"));
     ("stderr", VStr (lit "No action supplied. Use --run or --history."));
     ("exit_code", VInt 1)].

Section Program.
Context `{PyLib}.

Definition decode_command (encoded command : option pystr) : res pystr :=
  match encoded with
  | Some enc =>
      if str_truthy enc then
        try_except (raw ← b64decode enc; mret (utf8_decode_ignore raw))
          [ValueError; UnicodeDecodeError]
          (λ _, Ok [])
      else Ok (default [] (py_or command (Some [])))
  | None => Ok (default [] (py_or command (Some [])))
  end.

(** The [except] clause of [load_history] returns from the function, so the
    guarded block yields [None] for "return the default". *)
Definition load_history : M HistoryRecord :=
  present ← history_file_exists;
  if negb present then mret DEFAULT_HISTORY else
  loaded ← try_catch (data ← read_history_file; mret (Some data))
             [JSONDecodeError; OSError]
             (λ _, mret None);
  match loaded with
  | None => mret DEFAULT_HISTORY
  | Some (JDict members) =>
      let history := dict_get (lit "history") members (JList []) in
      let last_command := dict_get (lit "last_command") members (JStr []) in
      let history := match history with JList items => items | _ => [] end in
      mret (mkHistory
              (if py_truthy last_command then py_str last_command else [])
              (py_str <$> history))
  | Some _ => mret DEFAULT_HISTORY
  end.

Definition save_history (history : HistoryRecord) : M unit :=
  mkdir_history_dir;;
  try_catch (write_history_file history) [OSError] (λ _, mret ()).

(** The dictionary [response] as [run_command] first builds it. *)
Definition initial_response (command shell_path : pystr)
    (hist : HistoryRecord) : payload :=
  list_to_map
    [("type", VStr (lit "run"));
     ("command", VStr command);
     ("stdout", VStr []);
     ("stderr", VStr []);
     ("exit_code", VInt 0);
     ("shell", VStr shell_path);
     ("history", VList (history hist));
     ("last_command", VStr (last_command hist))].

(** The response and the history dictionary as [run_command] leaves it
    ([hist] is the source's parameter [history]). *)
Definition run_command (command : pystr) (hist : HistoryRecord)
    (max_history : Z) : M (payload * HistoryRecord) :=
  shell_path ← detect_shell;
  let response := initial_response command shell_path hist in
  let lowered := py_lower (py_strip command) in
  if bool_decide (lowered ∈ [[]; lit "clear"; lit "cls"]) then
    if str_truthy lowered
    then mret (<["action" := VStr (lit "clear")]> response, hist)
    else mret (response, hist)
  else if bool_decide (lowered ∈ [lit "exit"; lit "quit"]) then
    mret (<["action" := VStr (lit "exit")]> response, hist)
  else
    response ←
      try_catch
        (completed ← run_subprocess command shell_path;
         mret (<["exit_code" := VInt (cp_returncode completed)]>
                 (<["stderr" := VStr (cp_stderr completed)]>
                    (<["stdout" := VStr (cp_stdout completed)]> response))))
        [Exception]
        (λ execution_error,
           mret (<["exit_code" := VInt (-1)]>
                   (<["stderr" := VStr (lit "Execution error: "
                                         ++ exn_msg execution_error)]>
                      response)));
    let hist := update_history hist command max_history in
    save_history hist;;
    mret (<["last_command" := VStr (last_command hist)]>
            (<["history" := VList (history hist)]> response),
          hist).

Definition main (args : Args) : M Z :=
  hist ← load_history;
  if args_history args then
    shell ← detect_shell;
    emit (history_payload hist shell);;
    mret 0
  else if negb (args_run args) then
    emit error_payload;;
    mret 1
  else
    decoded ← lift (decode_command (args_encoded args) (args_command args));
    let command := py_strip decoded in
    '(response, _) ← run_command command hist
                       (Z.max 1 (args_max_history args));
    emit response;;
    mret 0.

(** [raise SystemExit(main(sys.argv[1:]))]: the process exits with the
    status [main] returns. An exception that leaves [main] ends the
    interpreter with a traceback: a [KeyboardInterrupt] by the signal
    SIGINT, any other exception with status 1. *)
Definition exit_status (args : Args) (w : World) : termination :=
  match (main args w).1 with
  | Ok code => Exited code
  | Raise e =>
      if bool_decide (exn_class e = KeyboardInterrupt)
      then Killed 2
      else Exited 1
  end.

End Program.

(** ** An executable instance of the library interface

    Used to run the program on concrete inputs. Base64 follows
    [binascii.a2b_base64] in its default, non-strict mode (characters outside
    the alphabet are skipped, a complete pad sequence ends the input), and
    the UTF-8 decoder drops every byte sequence CPython reports as
    undecodable. Lower-casing of non-ASCII text and [repr] are not modelled:
    the instance maps only [A-Z] to lower case and prints a fixed marker, so
    runs are meaningful for ASCII commands and string-valued history
    entries. *)

Definition b64_value (c : N) : option N :=
  (if (65 <=? c) && (c <=? 90) then Some (c - 65)
   else if (97 <=? c) && (c <=? 122) then Some (c - 71)
   else if (48 <=? c) && (c <=? 57) then Some (c + 4)
   else if c =? 43 then Some 62
   else if c =? 47 then Some 63
   else None)%N.

(** The decoding loop: [quad_pos] is the position inside the current group
    of four characters, [leftchar] the bits not yet written out, [pads] the
    number of pad characters seen since the last data character. The result
    is the output bytes and the final [quad_pos]. *)
Fixpoint a2b_loop (data : list N) (quad_pos : nat) (leftchar : N)
    (pads : nat) : list N * nat :=
  match data with
  | [] => ([], quad_pos)
  | this_ch :: rest =>
      if (this_ch =? 61)%N then
        if bool_decide (2 ≤ quad_pos ∧ 4 ≤ quad_pos + S pads)%nat
        then ([], 0%nat)
        else a2b_loop rest quad_pos leftchar
               (if bool_decide (2 ≤ quad_pos)%nat then S pads else pads)
      else
        match b64_value this_ch with
        | None => a2b_loop rest quad_pos leftchar pads
        | Some v =>
            match quad_pos with
            | 0%nat => a2b_loop rest 1 v 0
            | 1%nat =>
                let '(out, q) := a2b_loop rest 2 (N.land v 15) 0 in
                (N.lor (N.shiftl leftchar 2) (N.shiftr v 4) :: out, q)
            | 2%nat =>
                let '(out, q) := a2b_loop rest 3 (N.land v 3) 0 in
                (N.lor (N.shiftl leftchar 4) (N.shiftr v 2) :: out, q)
            | _ =>
                let '(out, q) := a2b_loop rest 0 0%N 0 in
                (N.lor (N.shiftl leftchar 6) v :: out, q)
            end
        end
  end.

(** A group left with one character cannot encode a byte; a group left with
    two or three lacks its padding. *)
Definition a2b_base64 (data : list N) : res (list N) :=
  let '(out, quad_pos) := a2b_loop data 0 0%N 0 in
  match quad_pos with
  | 0%nat => Ok out
  | 1%nat => Raise (mkExn BinasciiError (lit "Invalid base64-encoded string"))
  | _ => Raise (mkExn BinasciiError (lit "Incorrect padding"))
  end.

Definition ref_b64decode (s : pystr) : res (list N) :=
  if forallb is_ascii s then a2b_base64 s
  else Raise (mkExn ValueError
                (lit "string argument should contain only ASCII characters")).

Definition is_continuation (b : N) : bool := ((128 <=? b) && (b <? 192))%N.

(** [bytes.decode("utf-8", errors="ignore")]: well-formed sequences are
    decoded, an invalid start byte is dropped, a sequence broken by a byte
    that cannot continue it is dropped up to that byte, and a sequence cut
    off by the end of the input is dropped. *)
Fixpoint ref_utf8_decode_ignore (bs : list N) : pystr :=
  match bs with
  | [] => []
  | b0 :: r0 =>
    (if b0 <? 128 then b0 :: ref_utf8_decode_ignore r0
     else if b0 <? 194 then ref_utf8_decode_ignore r0
     else if b0 <? 224 then
       match r0 with
       | [] => []
       | b1 :: r1 =>
           if is_continuation b1
           then ((b0 - 192) * 64 + (b1 - 128)) :: ref_utf8_decode_ignore r1
           else ref_utf8_decode_ignore r0
       end
     else if b0 <? 240 then
       match r0 with
       | [] => []
       | b1 :: r1 =>
           if negb (is_continuation b1)
              || (if b1 <? 160 then b0 =? 224 else b0 =? 237)
           then ref_utf8_decode_ignore r0
           else
             match r1 with
             | [] => []
             | b2 :: r2 =>
                 if is_continuation b2
                 then ((b0 - 224) * 4096 + (b1 - 128) * 64 + (b2 - 128))
                        :: ref_utf8_decode_ignore r2
                 else ref_utf8_decode_ignore r1
             end
       end
     else if b0 <? 245 then
       match r0 with
       | [] => []
       | b1 :: r1 =>
           if negb (is_continuation b1)
              || (if b1 <? 144 then b0 =? 240 else b0 =? 244)
           then ref_utf8_decode_ignore r0
           else
             match r1 with
             | [] => []
             | b2 :: r2 =>
                 if negb (is_continuation b2) then ref_utf8_decode_ignore r1
                 else
                   match r2 with
                   | [] => []
                   | b3 :: r3 =>
                       if is_continuation b3
                       then ((b0 - 240) * 262144 + (b1 - 128) * 4096
                             + (b2 - 128) * 64 + (b3 - 128))
                              :: ref_utf8_decode_ignore r3
                       else ref_utf8_decode_ignore r2
                   end
             end
       end
     else ref_utf8_decode_ignore r0)%N
  end.

Definition reference_lib : PyLib := {|
  b64decode := ref_b64decode;
  utf8_decode_ignore := ref_utf8_decode_ignore;
  unicode_lower := fmap ascii_lower;
  py_repr := λ _, lit "<repr>"
|}.

(** ** Vocabulary of the properties *)

(** The strings [run_command] answers without a shell. *)
Definition clear_words : list pystr := [lit "clear"; lit "cls"].
Definition exit_words : list pystr := [lit "exit"; lit "quit"].

(** The invariants of a history record under the limit [limit]. *)
Definition history_invariant (limit : Z) (h : HistoryRecord) : Prop :=
  Z.of_nat (length (history h)) ≤ limit ∧ NoDup (history h).

(** A finite sequence of [update_history] calls with one limit. *)
Definition update_all (limit : Z) (h : HistoryRecord) (commands : list pystr)
    : HistoryRecord :=
  foldl (λ acc command, update_history acc command limit) h commands.

(** The response reports success and no output. *)
Definition quiet (response : payload) : Prop :=
  response !! "exit_code" = Some (VInt 0)
  ∧ response !! "stdout" = Some (VStr [])
  ∧ response !! "stderr" = Some (VStr []).

(** The failures of the child process [run_command] turns into a response:
    those deriving from [Exception]. The child is started under the shell
    [detect_shell] returns. *)
Definition launch_failure_caught (w : World) (command : pystr)
    : Prop :=
  ∀ shell e fs,
    (detect_shell w).1 = Ok shell →
    subprocess_run w command shell (history_file w) = (Raise e, fs) →
    caught_by [Exception] e = true.

(** The failures of the history write [save_history] swallows: those
    deriving from [OSError]. *)
Definition write_failure_caught (w : World) : Prop :=
  ∀ e fs, write_failure w = Some (e, fs) → caught_by [OSError] e = true.

(** What [emit] raises on a payload that cannot be encoded. *)
Definition unprintable : exn :=
  mkExn UnicodeEncodeError (lit "surrogates not allowed").

(** The last two statements of each branch of [main]: print the payload,
    return the code. *)
Definition reply (code : Z) (p : payload) : M Z := emit p;; mret code.

(** The record [load_history] builds from a decoded object. *)
Definition normalised `{PyLib} (members : list (pystr * json))
    : HistoryRecord :=
  let last := dict_get (lit "last_command") members (JStr []) in
  mkHistory
    (if py_truthy last then py_str last else [])
    (py_str <$> match dict_get (lit "history") members (JList []) with
                | JList items => items
                | _ => []
                end).

(** ** Sample worlds *)

(** A child process that prints the command it was given and succeeds. *)
Definition echo_process (command shell_path : pystr) (fs : file_state)
    : res CompletedProcess * file_state :=
  (Ok (mkCompleted command [] 0), fs).

(** No history yet, [/bin/bash] installed, nothing fails. *)
Definition calm_world : World :=
  mkWorld (λ _, None) (λ p, Ok (bool_decide (p = lit "/bin/bash"))) Absent
          None None echo_process [] [].

(** The file holds an object with a string where the list should be. *)
Definition string_history_world : World :=
  set_history_file
    (Present (Ok (JDict [(lit "history", JStr (lit "ls"));
                         (lit "last_command", JStr (lit "pwd"))])))
    calm_world.


(** The directory cannot be made. *)
Definition readonly_world : World :=
  mkWorld (λ _, None) (λ p, Ok (bool_decide (p = lit "/bin/bash"))) Absent
          (Some (mkExn PermissionError (lit "Permission denied")))
          None echo_process [] [].

(** The bytes of the history file are not UTF-8. *)
Definition not_utf8_world : World :=
  set_history_file
    (Present (Raise (mkExn UnicodeDecodeError (lit "invalid start byte"))))
    calm_world.

(** ** Vocabulary of the further properties *)

(** The value of the local variable [env_shell] of [detect_shell]. *)
Definition env_shell (w : World) : option pystr :=
  py_or (environ w "TERMINAL_BUDDY_SHELL") (environ w "SHELL").

(** A string of whitespace only, and a string without whitespace. *)
Definition blank (s : pystr) : Prop := Forall (λ c, py_isspace c = true) s.
Definition spaceless (s : pystr) : Prop :=
  Forall (λ c, py_isspace c = false) s.

(** The command is none of the five words: [run_command] hands it to the
    shell. *)
Definition other_command `{PyLib} (command : pystr) : Prop :=
  (py_lower (py_strip command) ∉ [] :: clear_words ++ exit_words).

(** The commands of a chronology (oldest first), each kept at its latest
    occurrence, latest first. *)
Definition most_recent_first (chronology : list pystr) : list pystr :=
  reverse (remove_dups chronology).

(** ** More sample worlds *)

(** A world with the two shell variables set as given and the listed paths
    present. *)
Definition env_world (override shell : option pystr) (present : list pystr)
    : World :=
  mkWorld (λ name, if bool_decide (name = "TERMINAL_BUDDY_SHELL"%string)
                   then override
                   else if bool_decide (name = "SHELL"%string) then shell
                   else None)
          (λ p, Ok (bool_decide (p ∈ present))) Absent None None
          echo_process
          [] [].

(** The shell cannot be started. *)
Definition no_shell_world : World :=
  mkWorld (λ _, None) (λ _, Ok false) Absent None None
          (λ _ _ fs,
             (Raise (mkExn FileNotFoundError (lit "No such file: /bin/sh")),
              fs))
          [] [].

(** The user interrupts the command. *)
Definition interrupted_world : World :=
  mkWorld (λ _, None) (λ _, Ok false) Absent None None
          (λ _ _ fs, (Raise (mkExn KeyboardInterrupt []), fs)) [] [].

(** The disk is full: the history file is left truncated. *)
Definition full_disk_world : World :=
  mkWorld (λ _, None) (λ p, Ok (bool_decide (p = lit "/bin/bash"))) Absent
          None
          (Some (mkExn OSError (lit "No space left on device"),
                 Present (Raise (mkExn JSONDecodeError
                                   (lit "Expecting value")))))
          echo_process [] [].

(** The history file holds the empty object. *)
Definition empty_object_world : World :=
  set_history_file (Present (Ok (JDict []))) calm_world.



(** A path too long for the file system: probing it raises. *)
Definition long_path : pystr := lit "/" ++ replicate 256 97%N.

(** [SHELL] holds the long path; any other path is probed as before. *)
Definition long_shell_world : World :=
  mkWorld (λ name, if bool_decide (name = "SHELL"%string)
                   then Some long_path else None)
          (λ p, if bool_decide (p = long_path)
                then Raise (mkExn OSError (lit "File name too long"))
                else Ok (bool_decide (p = lit "/bin/bash")))
          Absent None None echo_process [] [].

(** The storage directory cannot be searched: the existence check on the
    history file raises. *)
Definition unsearchable_world : World :=
  set_history_file
    (Unsearchable (mkExn PermissionError (lit "Permission denied")))
    calm_world.


(** * Properties *)

(** ** History update *)

Section UpdateHistory.
Implicit Types (h : HistoryRecord) (command entry : pystr) (limit : Z).

Lemma slice_to_nonneg {A} (l : list A) (stop : Z) :
  0 ≤ stop → slice_to l stop = take (Z.to_nat stop) l.
Proof.
  intros Hstop. unfold slice_to.
  destruct (Z.ltb_spec stop 0); [lia | reflexivity].
Qed.

Lemma slice_to_sublist {A} (l : list A) (stop : Z) :
  slice_to l stop `sublist_of` l.
Proof. unfold slice_to. destruct (stop <? 0); apply sublist_take. Qed.

Lemma update_history_last h command limit :
  last_command (update_history h command limit) = command.
Proof. reflexivity. Qed.

Lemma update_history_entries h command limit :
  history (update_history h command limit)
  = slice_to (command :: filter (λ entry, entry ≠ command) (history h))
      limit.
Proof. reflexivity. Qed.

Lemma prepended_NoDup (l : list pystr) command :
  NoDup l → NoDup (command :: filter (λ entry, entry ≠ command) l).
Proof.
  intros Hl. apply NoDup_cons. split.
  - rewrite list_elem_of_filter. intros [Hne _]. by apply Hne.
  - by apply NoDup_filter.
Qed.

Lemma update_history_NoDup h command limit :
  NoDup (history h) → NoDup (history (update_history h command limit)).
Proof.
  intros Hh. rewrite update_history_entries.
  eapply sublist_NoDup; [by apply prepended_NoDup | apply slice_to_sublist].
Qed.

Lemma update_history_length h command limit :
  0 ≤ limit →
  Z.of_nat (length (history (update_history h command limit))) ≤ limit.
Proof.
  intros Hlimit. rewrite update_history_entries, slice_to_nonneg by done.
  rewrite length_take. lia.
Qed.

End UpdateHistory.

(** C5, as amended: for a limit that is not negative, [update_history]
    drops every entry equal to the command (equality of strings, so a
    different letter case is a different entry) and keeps the others in
    their order, puts the command in front, keeps the first [limit] entries
    of that list and sets [last_command] to the command. From the empty
    record, the commands "ls", "pwd", "ls" with limit 3 leave the history
    ["ls"; "pwd"] and [last_command] "ls". *)
Theorem update_history_spec (h : HistoryRecord) (command : pystr) (limit : Z) :
  0 ≤ limit →
  let kept := filter (λ entry, entry ≠ command) (history h) in
  (∀ entry, entry ∈ kept ↔ entry ≠ command ∧ entry ∈ history h)
  ∧ kept `sublist_of` history h
  ∧ history (update_history h command limit)
    = take (Z.to_nat limit) (command :: kept)
  ∧ last_command (update_history h command limit) = command
  ∧ update_all 3 DEFAULT_HISTORY [lit "ls"; lit "pwd"; lit "ls"]
    = mkHistory (lit "ls") [lit "ls"; lit "pwd"]
  ∧ update_history (mkHistory (lit "LS") [lit "LS"]) (lit "ls") 3
    = mkHistory (lit "ls") [lit "ls"; lit "LS"].
Proof.
  intros Hlimit kept.
  split; [intros entry; apply (list_elem_of_filter (λ e, e ≠ command)) |].
  split; [apply sublist_filter |].
  split; [by rewrite update_history_entries, slice_to_nonneg |].
  by repeat split.
Qed.

Lemma update_history_spec_witness :
  history (update_history (mkHistory (lit "cd") [lit "cd"; lit "ls"; lit "cd"])
             (lit "cd") 2)
  = [lit "cd"; lit "ls"].
Proof.
  pose proof (update_history_spec
                (mkHistory (lit "cd") [lit "cd"; lit "ls"; lit "cd"])
                (lit "cd") 2 ltac:(lia)) as (_ & _ & Hentries & _).
  rewrite Hentries. reflexivity.
Defined.

(** C5 as stated fails for a negative limit: the slice [commands[:-1]]
    drops the last entry instead of keeping none, so the result is neither
    the first [limit] entries nor within the limit. *)
Lemma update_history_negative_limit :
  let h := mkHistory (lit "b") [lit "a"; lit "b"] in
  let h' := update_history h (lit "c") (-1) in
  history h' = [lit "c"; lit "a"]
  ∧ history h' ≠ take (Z.to_nat (-1)) (lit "c" :: history h)
  ∧ ¬ Z.of_nat (length (history h')) ≤ -1.
Proof.
  cbv zeta. split; [reflexivity |]. split; [discriminate |].
  vm_compute. intros Hle. by apply Hle.
Qed.

(** C6: every finite sequence of [update_history] calls with one limit of
    at least 1 keeps a history within the limit and without duplicates, when
    it starts from such a record. *)
Theorem update_all_invariant (limit : Z) (h : HistoryRecord)
    (commands : list pystr) :
  1 ≤ limit →
  history_invariant limit h →
  history_invariant limit (update_all limit h commands).
Proof.
  intros Hlimit. revert h.
  induction commands as [|command commands IH]; intros h Hinv; [done |].
  apply IH. destruct Hinv as [_ Hnodup]. split.
  - apply update_history_length. lia.
  - by apply update_history_NoDup.
Qed.

Lemma update_all_invariant_witness :
  history_invariant 2
    (update_all 2 DEFAULT_HISTORY [lit "ls"; lit "pwd"; lit "ls"; lit "cd"]).
Proof.
  apply update_all_invariant; [lia |].
  split; [simpl; lia | apply NoDup_nil_2].
Defined.

(** ** Command decoding *)

Lemma py_or_empty (command : option pystr) :
  default [] (py_or command (Some [])) = default [] command.
Proof. by destruct command as [[|c s]|]. Qed.

Lemma value_error_caught (e : exn) :
  issubclass (exn_class e) ValueError = true →
  caught_by [ValueError; UnicodeDecodeError] e = true.
Proof. intros He. unfold caught_by. simpl. by rewrite He. Qed.

Lemma ref_b64decode_raises (s : pystr) (e : exn) :
  ref_b64decode s = Raise e → issubclass (exn_class e) ValueError = true.
Proof.
  unfold ref_b64decode, a2b_base64.
  destruct (forallb is_ascii s); [| by intros [= <-]].
  destruct (a2b_loop s 0 0%N 0) as [out [|[|quad_pos]]];
    [done | by intros [= <-] ..].
Qed.

(** C9: with a non-empty encoded payload the command is the UTF-8 text,
    undecodable bytes dropped, of the base64-decoded payload, and the empty
    string when decoding raises (base64 failures are [ValueError]s,
    [binascii.Error] included); without one it is the raw string, or the
    empty string when that is absent. No exception leaves the function. *)
Theorem decode_command_spec `{PyLib} (encoded command : option pystr) :
  (∀ s e, b64decode s = Raise e →
          issubclass (exn_class e) ValueError = true) →
  decode_command encoded command
  = Ok (match encoded with
        | Some ((_ :: _) as payload) =>
            match b64decode payload with
            | Ok raw => utf8_decode_ignore raw
            | Raise _ => []
            end
        | Some [] | None => default [] command
        end).
Proof.
  intros Hraises. unfold decode_command.
  destruct encoded as [[|c payload]|]; simpl; rewrite ?py_or_empty; try done.
  unfold try_except, mbind, res_bind.
  destruct (b64decode (c :: payload)) as [raw|e] eqn:Hdecode;
    [reflexivity |].
  by rewrite value_error_caught by eauto.
Qed.

Lemma decode_command_spec_witness :
  @decode_command reference_lib (Some (lit "ZWNobyBoZWxsbw==")) None
  = Ok (lit "echo hello")
  ∧ @decode_command reference_lib (Some (lit "bHM")) (Some (lit "pwd"))
    = Ok []
  ∧ @decode_command reference_lib (Some []) (Some (lit "pwd"))
    = Ok (lit "pwd").
Proof.
  pose proof (@decode_command_spec reference_lib) as Hspec.
  repeat split; rewrite Hspec by apply ref_b64decode_raises; reflexivity.
Defined.

(** ** The shell resolver never changes the world *)

Lemma first_existing_world (l : list pystr) (w : World) :
  (first_existing l w).2 = w.
Proof.
  induction l as [|candidate rest IH]; [done |]. simpl.
  unfold mbind, M_bind, probe, mret, M_ret.
  by destruct (path_exists w candidate) as [[|]|e].
Qed.

Lemma detect_shell_world (w : World) : (detect_shell w).2 = w.
Proof.
  unfold detect_shell, getenv, probe, mbind, M_bind, mret, M_ret.
  destruct (py_or _ _) as [env_shell|]; [| apply first_existing_world].
  destruct (str_truthy env_shell); [| apply first_existing_world].
  destruct (path_exists w env_shell) as [[|]|e];
    [done | apply first_existing_world | done].
Qed.

Lemma detect_shell_returns (w : World) (shell : pystr) :
  (detect_shell w).1 = Ok shell → detect_shell w = (Ok shell, w).
Proof.
  intros Hshell. pose proof (detect_shell_world w) as Hw.
  destruct (detect_shell w) as [r w']. simpl in *. by subst.
Qed.

Lemma detect_shell_raises (w : World) (e : exn) :
  (detect_shell w).1 = Raise e → detect_shell w = (Raise e, w).
Proof.
  intros Hshell. pose proof (detect_shell_world w) as Hw.
  destruct (detect_shell w) as [r w']. simpl in *. by subst.
Qed.

(** ** Command execution *)

Arguments update_history : simpl never.
Arguments initial_response : simpl never.
Arguments caught_by : simpl never.
Arguments payload_encodable : simpl never.

(** Unfold the world-passing plumbing of the program's effectful calls. *)
Ltac unfold_M :=
  unfold save_history, run_subprocess, history_file_exists,
    read_history_file, mkdir_history_dir, write_history_file, emit,
    modify_world, lift in *;
  unfold try_catch, mbind, M_bind, mret, M_ret in *.

(** Split on what [detect_shell] gives in the world [w]. *)
Ltac shell_cases w :=
  let Hw := fresh "Hw" in
  pose proof (detect_shell_world w) as Hw;
  destruct (detect_shell w) as [[?shell|?e] ?w0] eqn:?Hshell;
  simpl in Hw; subst.

(** The result is the world and the record that were passed in. *)
Ltac unchanged := intros _; split; [| intros ? ? [= _ <-]].

(** Split on what the world answers: which exceptions are caught, whether
    the directory can be made, whether the file can be written. *)
Ltac world_cases :=
  repeat match goal with
    | |- context [caught_by ?c ?e] => destruct (caught_by c e) eqn:?; simpl
    | |- context [mkdir_failure ?w] => destruct (mkdir_failure w) eqn:?; simpl
    | |- context [write_failure ?w] =>
        destruct (write_failure w) as [[? ?]|] eqn:?; simpl
    end.

Section RunCommand.
Context `{PyLib}.
Implicit Types (command shell : pystr) (hist : HistoryRecord) (w : World).

(** [detect_shell] is the first call of [run_command]: what it raises
    leaves [run_command] before the command is looked at. *)
Lemma run_command_shell_raises command hist max_history w e :
  (detect_shell w).1 = Raise e →
  run_command command hist max_history w = (Raise e, w).
Proof.
  intros Hshell%detect_shell_raises. unfold run_command. unfold_M.
  by rewrite Hshell.
Qed.

Lemma run_command_empty command hist max_history w shell :
  (detect_shell w).1 = Ok shell →
  py_lower (py_strip command) = [] →
  run_command command hist max_history w
  = (Ok (initial_response command shell hist, hist), w).
Proof.
  intros Hshell%detect_shell_returns Hlow. unfold run_command. unfold_M.
  by rewrite Hshell, Hlow.
Qed.

Lemma run_command_clear command hist max_history w shell :
  (detect_shell w).1 = Ok shell →
  py_lower (py_strip command) ∈ clear_words →
  run_command command hist max_history w
  = (Ok (<["action" := VStr (lit "clear")]>
           (initial_response command shell hist), hist), w).
Proof.
  intros Hshell%detect_shell_returns Hlow. unfold run_command. unfold_M.
  rewrite Hshell.
  rewrite bool_decide_eq_true_2 by (by apply list_elem_of_further).
  unfold clear_words in Hlow.
  by apply elem_of_cons in Hlow as [-> | ->%list_elem_of_singleton].
Qed.

Lemma run_command_exit command hist max_history w shell :
  (detect_shell w).1 = Ok shell →
  py_lower (py_strip command) ∈ exit_words →
  run_command command hist max_history w
  = (Ok (<["action" := VStr (lit "exit")]>
           (initial_response command shell hist), hist), w).
Proof.
  intros Hshell%detect_shell_returns Hlow. unfold run_command. unfold_M.
  rewrite Hshell. unfold exit_words in Hlow.
  rewrite (bool_decide_eq_true_2 (_ ∈ [lit "exit"; lit "quit"])) by done.
  by apply elem_of_cons in Hlow as [-> | ->%list_elem_of_singleton].
Qed.

(** A command outside the five words reaches [subprocess.run] once the
    shell is detected: the call is made with the command as given, and a
    response, if one is returned, carries the updated history and no
    action. *)
Lemma run_command_other command hist max_history w shell :
  (detect_shell w).1 = Ok shell →
  py_lower (py_strip command) ∉ [] :: clear_words →
  py_lower (py_strip command) ∉ exit_words →
  let r := run_command command hist max_history w in
  spawned r.2 = spawned w ++ [(command, shell)]
  ∧ (∀ response h', r.1 = Ok (response, h') →
       h' = update_history hist command max_history
       ∧ response !! "action" = None
       ∧ response !! "command" = Some (VStr command)
       ∧ response !! "history" = Some (VList (history h'))
       ∧ response !! "last_command" = Some (VStr (last_command h'))).
Proof.
  intros Hshell%detect_shell_returns Hclear Hexit r. subst r.
  unfold run_command. unfold_M. rewrite Hshell.
  rewrite !bool_decide_eq_false_2 by done.
  destruct (subprocess_run w command shell (history_file w))
    as [[completed|e] fs]; simpl; world_cases.
  all: (split; [reflexivity |]).
  all: try (intros ? ? [=]; fail).
  all: intros response h' [= <- <-].
  all: repeat split; reflexivity.
Qed.

(** [run_command] prints nothing. *)
Lemma run_command_stdout command hist max_history w :
  stdout (run_command command hist max_history w).2 = stdout w.
Proof.
  unfold run_command. unfold_M. shell_cases w; [| done].
  repeat case_bool_decide; try destruct (str_truthy _); try reflexivity.
  destruct (subprocess_run w command shell (history_file w))
    as [[completed|e] fs]; simpl; world_cases; reflexivity.
Qed.

End RunCommand.

Lemma initial_response_quiet command shell_path hist :
  quiet (initial_response command shell_path hist).
Proof. by repeat split. Qed.

Lemma tagged_response_quiet command shell_path hist tag :
  quiet (<["action" := tag]> (initial_response command shell_path hist)).
Proof. by repeat split. Qed.

Lemma run_command_other_returns `{PyLib} command hist max_history w shell :
  (detect_shell w).1 = Ok shell →
  py_lower (py_strip command) ∉ [] :: clear_words →
  py_lower (py_strip command) ∉ exit_words →
  mkdir_failure w = None →
  launch_failure_caught w command →
  write_failure_caught w →
  ∃ response,
    (run_command command hist max_history w).1
    = Ok (response, update_history hist command max_history).
Proof.
  intros Hshell Hclear Hexit Hmkdir Hlaunch Hwrite.
  specialize (Hlaunch shell). apply detect_shell_returns in Hshell.
  unfold run_command. unfold_M. rewrite Hshell.
  rewrite !bool_decide_eq_false_2 by done.
  destruct (subprocess_run w command shell (history_file w))
    as [[completed|e] fs]; simpl.
  2: rewrite (Hlaunch e fs) by (by rewrite ?Hshell); simpl.
  all: rewrite Hmkdir; simpl.
  all: destruct (write_failure w) as [[e' fs']|] eqn:Hw; simpl;
    [rewrite (Hwrite e' fs' Hw) |]; simpl; eauto.
Qed.

(** With the shell detected, the five words are answered at once: the
    response has exit code 0 and the world and the record come back as
    they were. *)
Lemma run_command_five_words `{PyLib} command hist max_history w shell :
  (detect_shell w).1 = Ok shell →
  py_lower (py_strip command) ∈ [] :: clear_words ++ exit_words →
  ∃ response,
    run_command command hist max_history w = (Ok (response, hist), w)
    ∧ quiet response.
Proof.
  intros Hshell [Hin | [Hin | Hin]%elem_of_app]%elem_of_cons.
  - rewrite (run_command_empty _ _ _ _ shell) by done.
    eexists. split; [done |]. apply initial_response_quiet.
  - rewrite (run_command_clear _ _ _ _ shell) by done.
    eexists. split; [done |]. apply tagged_response_quiet.
  - rewrite (run_command_exit _ _ _ _ shell) by done.
    eexists. split; [done |]. apply tagged_response_quiet.
Qed.

(** C7 fails on the code: [run_command] calls [detect_shell] before it
    looks at the command, and [Path(env_shell).exists()] is not guarded.
    With [SHELL] set to a path too long to probe, the command "clear"
    gets no result: the [OSError] of the probe leaves [run_command]. *)
Theorem run_command_clear_probe_raises :
  let r := @run_command reference_lib (lit "clear") DEFAULT_HISTORY 100
             long_shell_world in
  @py_lower reference_lib (py_strip (lit "clear")) = lit "clear"
  ∧ environ long_shell_world "SHELL" = Some long_path
  ∧ path_exists long_shell_world long_path
    = Raise (mkExn OSError (lit "File name too long"))
  ∧ r.1 = Raise (mkExn OSError (lit "File name too long"))
  ∧ spawned r.2 = [].
Proof. repeat split; reflexivity. Qed.


Lemma calm_world_shell : (detect_shell calm_world).1 = Ok (lit "/bin/bash").
Proof. reflexivity. Qed.

Lemma calm_world_launch command : launch_failure_caught calm_world command.
Proof. by intros shell e fs. Qed.



(** ** Loading and saving the history *)

Section HistoryStore.
Context `{PyLib}.
Implicit Types (w : World) (h : HistoryRecord).

Lemma load_history_absent w :
  history_file w = Absent → load_history w = (Ok DEFAULT_HISTORY, w).
Proof. intros Hfile. unfold load_history. unfold_M. by rewrite Hfile. Qed.

(** The existence check stands before the guarded block: what it raises
    leaves [load_history]. *)
Lemma load_history_unsearchable w e :
  history_file w = Unsearchable e → load_history w = (Raise e, w).
Proof. intros Hfile. unfold load_history. unfold_M. by rewrite Hfile. Qed.

Lemma load_history_caught w e :
  history_file w = Present (Raise e) →
  caught_by [JSONDecodeError; OSError] e = true →
  load_history w = (Ok DEFAULT_HISTORY, w).
Proof.
  intros Hfile Hcaught. unfold load_history. unfold_M.
  repeat (rewrite Hfile; simpl). by rewrite Hcaught.
Qed.

(** An exception of another class leaves [load_history]. *)
Lemma load_history_uncaught w e :
  history_file w = Present (Raise e) →
  caught_by [JSONDecodeError; OSError] e = false →
  load_history w = (Raise e, w).
Proof.
  intros Hfile Hcaught. unfold load_history. unfold_M.
  repeat (rewrite Hfile; simpl). by rewrite Hcaught.
Qed.

Lemma load_history_value w data :
  history_file w = Present (Ok data) →
  load_history w
  = (Ok match data with
        | JDict members => normalised members
        | _ => DEFAULT_HISTORY
        end, w).
Proof.
  intros Hfile. unfold load_history. unfold_M.
  repeat (rewrite Hfile; simpl). by destruct data.
Qed.

Lemma load_history_world w : (load_history w).2 = w.
Proof.
  destruct (history_file w) as [|[data|e]|e] eqn:Hfile.
  - by rewrite load_history_absent.
  - by rewrite (load_history_value w data).
  - destruct (caught_by [JSONDecodeError; OSError] e) eqn:Hcaught.
    + by rewrite (load_history_caught w e).
    + by rewrite (load_history_uncaught w e).
  - by rewrite (load_history_unsearchable w e).
Qed.

(** With the directory in place, [save_history] swallows a failed write
    that raises an [OSError]. *)
Lemma save_history_swallows h w :
  mkdir_failure w = None → write_failure_caught w →
  (save_history h w).1 = Ok ().
Proof.
  intros Hmkdir Hwrite. unfold_M. rewrite Hmkdir.
  destruct (write_failure w) as [[e fs]|] eqn:Hw; [| done].
  by rewrite (Hwrite e fs Hw).
Qed.

(** A failure to make the directory leaves [save_history]. *)
Lemma save_history_mkdir_raises h w e :
  mkdir_failure w = Some e → save_history h w = (Raise e, w).
Proof. intros Hmkdir. unfold_M. by rewrite Hmkdir. Qed.

End HistoryStore.




(** C2 fails on the code: [HISTORY_DIR.mkdir] stands outside the [try]
    block, so when the directory cannot be made the [PermissionError]
    leaves [save_history] instead of being swallowed. *)
Theorem save_history_mkdir_failure :
  caught_by [OSError] (mkExn PermissionError (lit "Permission denied")) = true
  ∧ save_history (mkHistory (lit "ls") [lit "ls"]) readonly_world
    = (Raise (mkExn PermissionError (lit "Permission denied")),
       readonly_world).
Proof. split; reflexivity. Qed.

(** ** The request handler *)

Lemma update_history_head (h : HistoryRecord) (command : pystr)
    (limit : Z) :
  1 ≤ limit →
  head (history (update_history h command limit)) = Some command.
Proof.
  intros Hlimit. rewrite update_history_entries, slice_to_nonneg by lia.
  destruct (Z.to_nat limit) as [|n] eqn:Hn; [lia | done].
Qed.

(** A payload that can be encoded is printed whole and the code returned;
    one that cannot leaves a part of its line and raises. *)
Lemma reply_printed (code : Z) (p : payload) (w : World) :
  payload_encodable p = true →
  reply code p w = (Ok code, set_stdout (stdout w ++ [Printed p]) w).
Proof. intros Hp. unfold reply. unfold_M. by rewrite Hp. Qed.

Lemma reply_truncated (code : Z) (p : payload) (w : World) :
  payload_encodable p = false →
  reply code p w
  = (Raise unprintable, set_stdout (stdout w ++ [Truncated p]) w).
Proof. intros Hp. unfold reply. unfold_M. by rewrite Hp. Qed.

Lemma reply_returns (code code' : Z) (p : payload) (w : World) :
  (reply code p w).1 = Ok code' →
  code' = code ∧ payload_encodable p = true
  ∧ (reply code p w).2 = set_stdout (stdout w ++ [Printed p]) w.
Proof.
  destruct (payload_encodable p) eqn:Hp.
  - rewrite reply_printed by done. by intros [= <-].
  - by rewrite reply_truncated.
Qed.

Lemma reply_frame (code : Z) (p : payload) (w : World) :
  spawned (reply code p w).2 = spawned w
  ∧ history_file (reply code p w).2 = history_file w.
Proof.
  destruct (payload_encodable p) eqn:Hp.
  - by rewrite reply_printed.
  - by rewrite reply_truncated.
Qed.

Lemma error_payload_encodable : payload_encodable error_payload = true.
Proof. reflexivity. Qed.

Section Main.
Context `{PyLib}.
Implicit Types (args : Args) (w : World) (hist : HistoryRecord).
Implicit Types (shell : pystr).

Lemma run_command_other_file command hist max_history w shell :
  (detect_shell w).1 = Ok shell →
  py_lower (py_strip command) ∉ [] :: clear_words →
  py_lower (py_strip command) ∉ exit_words →
  mkdir_failure w = None → write_failure w = None →
  launch_failure_caught w command →
  history_file (run_command command hist max_history w).2
  = Present (Ok (history_to_json (update_history hist command max_history))).
Proof.
  intros Hshell Hclear Hexit Hmkdir Hwrite Hlaunch.
  specialize (Hlaunch shell). apply detect_shell_returns in Hshell.
  unfold run_command. unfold_M. rewrite Hshell.
  rewrite !bool_decide_eq_false_2 by done.
  destruct (subprocess_run w command shell (history_file w))
    as [[completed|e] fs]; simpl.
  2: rewrite (Hlaunch e fs) by (by rewrite ?Hshell); simpl.
  all: rewrite Hmkdir; simpl; by rewrite Hwrite.
Qed.

Lemma main_load_raises args w e :
  load_history w = (Raise e, w) → main args w = (Raise e, w).
Proof. intros Hload. unfold main. unfold_M. by rewrite Hload. Qed.

Lemma main_history_shell_raises args w hist e :
  load_history w = (Ok hist, w) → args_history args = true →
  (detect_shell w).1 = Raise e →
  main args w = (Raise e, w).
Proof.
  intros Hload Hflag Hshell%detect_shell_raises. unfold main. unfold_M.
  by rewrite Hload, Hflag, Hshell.
Qed.

Lemma main_history_mode args w hist shell :
  load_history w = (Ok hist, w) → args_history args = true →
  (detect_shell w).1 = Ok shell →
  main args w = reply 0 (history_payload hist shell) w.
Proof.
  intros Hload Hflag Hshell%detect_shell_returns. unfold main, reply.
  unfold_M. by rewrite Hload, Hflag, Hshell.
Qed.

Lemma main_no_action args w hist :
  load_history w = (Ok hist, w) →
  args_history args = false → args_run args = false →
  main args w = (Ok 1, set_stdout (stdout w ++ [Printed error_payload]) w).
Proof.
  intros Hload Hhistory Hrun. rewrite <- reply_printed by done.
  unfold main, reply. unfold_M. by rewrite Hload, Hhistory, Hrun.
Qed.

Lemma main_decode_raises args w hist e :
  load_history w = (Ok hist, w) →
  args_history args = false → args_run args = true →
  decode_command (args_encoded args) (args_command args) = Raise e →
  main args w = (Raise e, w).
Proof.
  intros Hload Hhistory Hrun Hdecode. unfold main. unfold_M.
  by rewrite Hload, Hhistory, Hrun, Hdecode.
Qed.

Lemma main_run_mode args w hist decoded :
  load_history w = (Ok hist, w) →
  args_history args = false → args_run args = true →
  decode_command (args_encoded args) (args_command args) = Ok decoded →
  main args w
  = match run_command (py_strip decoded) hist
            (Z.max 1 (args_max_history args)) w with
    | (Ok (response, _), w') => reply 0 response w'
    | (Raise e, w') => (Raise e, w')
    end.
Proof.
  intros Hload Hhistory Hrun Hdecode. unfold main, reply. unfold_M.
  rewrite Hload, Hhistory, Hrun, Hdecode. simpl.
  by destruct (run_command _ _ _ w) as [[[response h']|e] w'].
Qed.

(** When [main] returns, it returns 1 exactly for an invocation with
    neither flag, and 0 otherwise. *)
Lemma main_return_code args w code :
  (main args w).1 = Ok code →
  (code = 1 ∧ args_history args = false ∧ args_run args = false)
  ∨ (code = 0 ∧ (args_history args = true ∨ args_run args = true)).
Proof.
  pose proof (load_history_world w) as Hw.
  destruct (load_history w) as [[hist|e] w0] eqn:Hload; simpl in Hw; subst w0.
  2: { by rewrite (main_load_raises args w e). }
  destruct (args_history args) eqn:Hhistory.
  { destruct (detect_shell w).1 as [shell|e] eqn:Hshell.
    - rewrite (main_history_mode args w hist shell) by done.
      intros (-> & _)%reply_returns. eauto.
    - by rewrite (main_history_shell_raises args w hist e). }
  destruct (args_run args) eqn:Hrun.
  2: { rewrite (main_no_action args w hist) by done. intros [= <-]. eauto. }
  destruct (decode_command (args_encoded args) (args_command args))
    as [decoded|e] eqn:Hdecode.
  2: { by rewrite (main_decode_raises args w hist e). }
  rewrite (main_run_mode args w hist decoded) by done.
  destruct (run_command _ _ _ w) as [[[response h']|e] w']; [| done].
  intros (-> & _)%reply_returns. eauto.
Qed.

End Main.

(** C4, as amended: for a run request whose history loads, whose shell is
    detected and whose command is none of the five words, the command
    given to [subprocess.run] and stored at the front of the history is
    the decoded command with the whitespace around it stripped by [main],
    in its own letter case; lower-casing serves only to classify it. The
    response, when [main] returns, and the history file, when the write
    succeeds, carry the same stripped command; [main] then returns 0 once
    the response can be printed. *)
Theorem main_runs_stripped_command `{PyLib} (args : Args) (w : World)
    (hist : HistoryRecord) (decoded shell : pystr) :
  args_history args = false → args_run args = true →
  load_history w = (Ok hist, w) →
  (detect_shell w).1 = Ok shell →
  decode_command (args_encoded args) (args_command args) = Ok decoded →
  let command := py_strip decoded in
  let stored :=
    update_history hist command (Z.max 1 (args_max_history args)) in
  py_lower (py_strip command) ∉ [] :: clear_words ++ exit_words →
  let r := main args w in
  spawned r.2 = spawned w ++ [(command, shell)]
  ∧ head (history stored) = Some command
  ∧ last_command stored = command
  ∧ (∀ code, r.1 = Ok code →
     ∃ response,
       stdout r.2 = stdout w ++ [Printed response]
       ∧ response !! "command" = Some (VStr command)
       ∧ response !! "history" = Some (VList (history stored))
       ∧ response !! "last_command" = Some (VStr command))
  ∧ (mkdir_failure w = None → write_failure w = None →
     launch_failure_caught w command →
     history_file r.2 = Present (Ok (history_to_json stored))
     ∧ ∃ response,
         (run_command command hist (Z.max 1 (args_max_history args)) w).1
         = Ok (response, stored)
         ∧ (payload_encodable response = true → r.1 = Ok 0)).
Proof.
  intros Hhistory Hrun Hload Hshell Hdecode command stored
    [Hne [Hnc Hnx]%not_elem_of_app]%not_elem_of_cons r.
  assert (py_lower (py_strip command) ∉ [] :: clear_words) as Hclear
    by (by apply not_elem_of_cons).
  subst r. rewrite (main_run_mode args w hist decoded) by done.
  fold command.
  pose proof (run_command_other command hist
                (Z.max 1 (args_max_history args)) w shell Hshell Hclear Hnx)
    as [Hspawned Hresponse].
  pose proof (run_command_other_file command hist
                (Z.max 1 (args_max_history args)) w shell Hshell Hclear Hnx)
    as Hfile.
  pose proof (run_command_other_returns command hist
                (Z.max 1 (args_max_history args)) w shell Hshell Hclear Hnx)
    as Hreturns.
  pose proof (run_command_stdout command hist
                (Z.max 1 (args_max_history args)) w) as Hstdout.
  destruct (run_command command hist (Z.max 1 (args_max_history args)) w)
    as [[[response h']|e] w'] eqn:Hrc; simpl in *.
  - destruct (Hresponse response h' eq_refl)
      as (-> & _ & Hcommand & Hentries & Hlast).
    destruct (reply_frame 0 response w') as [-> Hframe].
    split; [done |]. split; [apply update_history_head; lia |].
    split; [done |]. split.
    + intros code (_ & _ & ->)%reply_returns. exists response.
      simpl. by rewrite Hstdout.
    + intros Hmkdir Hwrite Hlaunch. rewrite Hframe.
      split; [by apply Hfile |]. exists response. split; [done |].
      intros Hp. by rewrite reply_printed.
  - split; [done |]. split; [apply update_history_head; lia |].
    split; [done |]. split; [done |].
    intros Hmkdir Hwrite Hlaunch.
    destruct Hreturns as [response [=]]; [done | done |].
    by intros e' fs; rewrite Hwrite.
Qed.

Lemma main_runs_stripped_command_witness :
  let args := mkArgs true (Some (lit "ICBMUyAtbGEg")) None false 100 in
  let r := @main reference_lib args calm_world in
  spawned r.2 = [(lit "LS -la", lit "/bin/bash")]
  ∧ head (history (mkHistory (lit "LS -la") [lit "LS -la"]))
    = Some (lit "LS -la")
  ∧ history_file r.2
    = Present (Ok (history_to_json (mkHistory (lit "LS -la") [lit "LS -la"]))).
Proof.
  pose proof (@main_runs_stripped_command reference_lib
                (mkArgs true (Some (lit "ICBMUyAtbGEg")) None false 100)
                calm_world DEFAULT_HISTORY (lit "  LS -la ") (lit "/bin/bash")
                eq_refl eq_refl eq_refl eq_refl eq_refl ltac:(compute_done))
    as (Hspawned & Hhead & _ & _ & Hsaved).
  destruct (Hsaved eq_refl eq_refl (calm_world_launch _)) as [Hfile _].
  split; [exact Hspawned |]. split; [exact Hhead | exact Hfile].
Defined.

(** C4 as stated fails: the decoded command "  ls  " is not what reaches
    the shell and the history; [main] strips it to "ls" first. *)
Lemma main_strips_command :
  let args := mkArgs true (Some (lit "ICBscyAg")) None false 100 in
  let r := @main reference_lib args calm_world in
  @decode_command reference_lib (args_encoded args) (args_command args)
  = Ok (lit "  ls  ")
  ∧ spawned r.2 = [(lit "ls", lit "/bin/bash")]
  ∧ history_file r.2
    = Present (Ok (history_to_json (mkHistory (lit "ls") [lit "ls"])))
  ∧ lit "ls" ≠ lit "  ls  ".
Proof. repeat split; try reflexivity. discriminate. Qed.

(** C1 fails on the code: with the run flag given and a storage directory
    that cannot be made, the command runs, the [PermissionError] from
    [save_history] leaves [main], nothing is printed and the process ends
    with status 1. *)
Theorem main_exit_status_mkdir_failure :
  let args := mkArgs true None (Some (lit "ls")) false 100 in
  let r := @main reference_lib args readonly_world in
  args_run args = true
  ∧ spawned r.2 = [(lit "ls", lit "/bin/bash")]
  ∧ r.1 = Raise (mkExn PermissionError (lit "Permission denied"))
  ∧ stdout r.2 = []
  ∧ @exit_status reference_lib args readonly_world = Exited 1.
Proof. repeat split; reflexivity. Qed.

(** C10 fails on the code: with both flags given and a history file that
    is not UTF-8, the [UnicodeDecodeError] is not among the exceptions
    [load_history] catches, so it leaves [main] before the history flag is
    looked at: nothing is printed and the process ends with status 1. *)
Theorem main_history_flag_not_utf8 :
  let args := mkArgs true None (Some (lit "ls")) true 100 in
  let r := @main reference_lib args not_utf8_world in
  args_history args = true ∧ args_run args = true
  ∧ r.1 = Raise (mkExn UnicodeDecodeError (lit "invalid start byte"))
  ∧ stdout r.2 = []
  ∧ @exit_status reference_lib args not_utf8_world = Exited 1.
Proof. repeat split; reflexivity. Qed.

(** * Further properties *)

(** ** The shell resolver *)

(** The loop over the candidates returns [shell] exactly when every
    candidate before [shell] was probed absent and [shell] present, or all
    were probed absent and [shell] is the last resort. *)
Lemma first_existing_spec (l : list pystr) (w : World) (shell : pystr) :
  (first_existing l w).1 = Ok shell
  ↔ (∃ skipped rest,
       l = skipped ++ shell :: rest
       ∧ path_exists w shell = Ok true
       ∧ Forall (λ c, path_exists w c = Ok false) skipped)
    ∨ (shell = lit "/bin/sh" ∧ Forall (λ c, path_exists w c = Ok false) l).
Proof.
  revert shell. induction l as [|c l IH]; intros shell; simpl.
  { split.
    - intros [= <-]. by right.
    - intros [(skipped & rest & Hl & _) | [-> _]]; [| done].
      by destruct skipped. }
  unfold mbind, M_bind, probe, mret, M_ret.
  destruct (path_exists w c) as [[|]|e] eqn:Hc; simpl.
  - split.
    + intros [= <-]. left. by exists [], l.
    + intros [(skipped & rest & Hl & Hf & Hall) | [_ Hall]].
      * destruct skipped as [|c' skipped]; [by injection Hl as -> _ |].
        injection Hl as <- _. apply Forall_cons in Hall as [Hc' _].
        congruence.
      * apply Forall_cons in Hall as [Hc' _]. congruence.
  - rewrite IH. split.
    + intros [(skipped & rest & -> & Hf & Hall) | [-> Hall]].
      * left. exists (c :: skipped), rest. by repeat split; [| constructor].
      * right. by split; [| constructor].
    + intros [(skipped & rest & Hl & Hf & Hall) | [-> Hall]].
      * destruct skipped as [|c' skipped].
        { injection Hl as -> _. congruence. }
        injection Hl as <- ->. apply Forall_cons in Hall as [_ Hall].
        left. by exists skipped, rest.
      * apply Forall_cons in Hall as [_ Hall]. by right.
  - split; [done |].
    intros [(skipped & rest & Hl & Hf & Hall) | [_ Hall]].
    + destruct skipped as [|c' skipped].
      { injection Hl as -> _. congruence. }
      injection Hl as <- _. apply Forall_cons in Hall as [Hc' _].
      congruence.
    + apply Forall_cons in Hall as [Hc' _]. congruence.
Qed.

Lemma first_existing_nonempty (w : World) (shell : pystr) :
  (first_existing candidates w).1 = Ok shell → shell ≠ [].
Proof.
  intros [(skipped & rest & Hl & _) | [-> _]]%first_existing_spec; [| done].
  assert (shell ∈ candidates) as Hin
    by (rewrite Hl; apply elem_of_app; right; left).
  intros ->. revert Hin. compute_done.
Qed.

Lemma detect_shell_env (w : World) :
  detect_shell w
  = match env_shell w with
    | Some p =>
        if str_truthy p then
          match path_exists w p with
          | Ok true => (Ok p, w)
          | Ok false => first_existing candidates w
          | Raise e => (Raise e, w)
          end
        else first_existing candidates w
    | None => first_existing candidates w
    end.
Proof.
  unfold detect_shell, env_shell, getenv, probe, mbind, M_bind, mret, M_ret.
  destruct (py_or _ _) as [p|]; [| done].
  destruct (str_truthy p); [| done].
  by destruct (path_exists w p) as [[|]|e].
Qed.

(** X1: a non-empty [TERMINAL_BUDDY_SHELL] that names an existing path is
    the shell, whatever [SHELL] and the candidate list would give; the call
    raises nothing and changes nothing. *)
Theorem detect_shell_override (w : World) (p : pystr) :
  environ w "TERMINAL_BUDDY_SHELL" = Some p →
  p ≠ [] → path_exists w p = Ok true →
  detect_shell w = (Ok p, w).
Proof.
  intros Henv Hp Hex. rewrite detect_shell_env. unfold env_shell.
  rewrite Henv. destruct p as [|c p]; [done |]. simpl. by rewrite Hex.
Qed.

Lemma detect_shell_override_witness :
  let w := env_world (Some (lit "/usr/bin/fish")) (Some (lit "/bin/bash"))
             [lit "/usr/bin/fish"; lit "/bin/bash"; lit "/usr/bin/zsh"] in
  detect_shell w = (Ok (lit "/usr/bin/fish"), w).
Proof.
  apply detect_shell_override; [reflexivity | discriminate | reflexivity].
Defined.

(** X2: when [TERMINAL_BUDDY_SHELL] is unset or empty, a non-empty [SHELL]
    that names an existing path is the shell. *)
Theorem detect_shell_fallback_SHELL (w : World) (q : pystr) :
  environ w "TERMINAL_BUDDY_SHELL" = None
  ∨ environ w "TERMINAL_BUDDY_SHELL" = Some [] →
  environ w "SHELL" = Some q → q ≠ [] → path_exists w q = Ok true →
  detect_shell w = (Ok q, w).
Proof.
  intros Hov Henv Hq Hex. rewrite detect_shell_env. unfold env_shell.
  destruct Hov as [-> | ->]; simpl; rewrite Henv;
    destruct q as [|c q]; try done; simpl; by rewrite Hex.
Qed.

Lemma detect_shell_fallback_SHELL_witness :
  let w := env_world (Some []) (Some (lit "/opt/bin/ksh"))
             [lit "/opt/bin/ksh"; lit "/usr/bin/zsh"] in
  detect_shell w = (Ok (lit "/opt/bin/ksh"), w).
Proof.
  apply (detect_shell_fallback_SHELL
           (env_world (Some []) (Some (lit "/opt/bin/ksh"))
              [lit "/opt/bin/ksh"; lit "/usr/bin/zsh"]));
    [by right | reflexivity | discriminate | reflexivity].
Defined.

(** X3: a non-empty [TERMINAL_BUDDY_SHELL] whose probe answers that no
    such path exists keeps [SHELL] from being looked at: [detect_shell]
    then does what the loop over the candidate list does, returning or
    raising as the loop does, even when [SHELL] names an existing
    shell. *)
Theorem detect_shell_broken_override (w : World) (p : pystr) :
  environ w "TERMINAL_BUDDY_SHELL" = Some p →
  p ≠ [] → path_exists w p = Ok false →
  detect_shell w = first_existing candidates w.
Proof.
  intros Henv Hp Hex. rewrite detect_shell_env. unfold env_shell.
  rewrite Henv. destruct p as [|c p]; [done |]. simpl. by rewrite Hex.
Qed.

Lemma detect_shell_broken_override_witness :
  let w := env_world (Some (lit "/no/such/shell"))
             (Some (lit "/opt/bin/ksh"))
             [lit "/opt/bin/ksh"; lit "/bin/bash"] in
  detect_shell w = (Ok (lit "/bin/bash"), w).
Proof.
  cbv zeta.
  rewrite (detect_shell_broken_override
             (env_world (Some (lit "/no/such/shell"))
                (Some (lit "/opt/bin/ksh"))
                [lit "/opt/bin/ksh"; lit "/bin/bash"])
             (lit "/no/such/shell") eq_refl ltac:(discriminate) eq_refl).
  reflexivity.
Defined.

(** X4: the shell [detect_shell] returns is never the empty string, and it
    either was probed present or is the last resort [/bin/sh]. *)
Theorem detect_shell_result (w : World) (shell : pystr) :
  (detect_shell w).1 = Ok shell →
  shell ≠ []
  ∧ (path_exists w shell = Ok true ∨ shell = lit "/bin/sh").
Proof.
  assert ((first_existing candidates w).1 = Ok shell →
          shell ≠ []
          ∧ (path_exists w shell = Ok true ∨ shell = lit "/bin/sh"))
    as Hfe.
  { intros Hshell. split; [by eapply first_existing_nonempty |].
    apply first_existing_spec in Hshell
      as [(skipped & rest & _ & Hf & _) | [-> _]]; eauto. }
  rewrite detect_shell_env.
  destruct (env_shell w) as [p|]; [| done].
  destruct (str_truthy p) eqn:Hp; [| done].
  destruct (path_exists w p) as [[|]|e] eqn:Hex; [| done | done].
  intros [= <-]. split; [by destruct p | by left].
Qed.

Lemma detect_shell_result_witness :
  lit "/bin/bash" ≠ []
  ∧ (path_exists calm_world (lit "/bin/bash") = Ok true
     ∨ lit "/bin/bash" = lit "/bin/sh").
Proof. apply (detect_shell_result calm_world). reflexivity. Defined.

(** X5: when the environment gives no usable shell (no variable set, an
    empty value, or a path probed absent), [detect_shell] returns [shell]
    exactly when [shell] is the first candidate of the list probed
    present, every candidate before it having been probed absent, or when
    every candidate was probed absent and [shell] is [/bin/sh]. A probe
    that raises before that point leaves no shell returned. *)
Theorem detect_shell_probes_in_order (w : World) (shell : pystr) :
  (∀ p, env_shell w = Some p → p = [] ∨ path_exists w p = Ok false) →
  (detect_shell w).1 = Ok shell
  ↔ (∃ skipped rest,
       candidates = skipped ++ shell :: rest
       ∧ path_exists w shell = Ok true
       ∧ Forall (λ c, path_exists w c = Ok false) skipped)
    ∨ (shell = lit "/bin/sh"
       ∧ Forall (λ c, path_exists w c = Ok false) candidates).
Proof.
  intros Henv.
  assert (detect_shell w = first_existing candidates w)
    as ->; [| apply first_existing_spec].
  rewrite detect_shell_env.
  destruct (env_shell w) as [p|]; [| done].
  destruct (Henv p eq_refl) as [-> | Hex]; [done |].
  rewrite Hex. by destruct (str_truthy p).
Qed.

Lemma detect_shell_probes_in_order_witness :
  (detect_shell calm_world).1 = Ok (lit "/bin/bash").
Proof.
  apply (detect_shell_probes_in_order calm_world (lit "/bin/bash"));
    [by intros p [=] |].
  left. exists [lit "/usr/bin/zsh"; lit "/usr/bin/fish"; lit "/usr/bin/bash"],
    [lit "/bin/zsh"; lit "/bin/fish"; lit "/bin/sh"].
  split; [reflexivity |]. split; [reflexivity |].
  repeat constructor.
Defined.

(** X29: a non-empty shell taken from the environment whose probe raises
    ends [detect_shell] with that exception: the candidate list is not
    tried and nothing is changed. *)
Theorem detect_shell_probe_raises (w : World) (p : pystr) (e : exn) :
  env_shell w = Some p → p ≠ [] → path_exists w p = Raise e →
  detect_shell w = (Raise e, w).
Proof.
  intros Henv Hp Hex. rewrite detect_shell_env, Henv.
  destruct p as [|c p]; [done |]. simpl. by rewrite Hex.
Qed.

Lemma detect_shell_probe_raises_witness :
  detect_shell long_shell_world
  = (Raise (mkExn OSError (lit "File name too long")), long_shell_world).
Proof.
  apply (detect_shell_probe_raises long_shell_world long_path);
    [reflexivity | discriminate | reflexivity].
Defined.
(** ** More on the history update *)

Section UpdateMore.
Implicit Types (h : HistoryRecord) (command entry : pystr) (limit : Z).

Lemma filter_absent (l : list pystr) command :
  command ∉ l → filter (λ entry, entry ≠ command) l = l.
Proof.
  intros Hnot. induction l as [|x l IH]; [done |].
  apply not_elem_of_cons in Hnot as [Hne Hnot].
  rewrite filter_cons_True by done. by rewrite IH.
Qed.

Lemma filter_take_absent (l : list pystr) command n :
  command ∉ l →
  filter (λ entry, entry ≠ command) (take n l) = take n l.
Proof.
  intros Hnot. apply filter_absent. intros Hin. apply Hnot.
  eapply elem_of_sublist; [done | apply sublist_take].
Qed.

Lemma kept_absent (l : list pystr) command :
  command ∉ filter (λ entry, entry ≠ command) l.
Proof. rewrite list_elem_of_filter. by intros [Hne _]. Qed.

Lemma update_history_nonneg h command limit :
  0 ≤ limit →
  update_history h command limit
  = mkHistory command
      (take (Z.to_nat limit)
         (command :: filter (λ entry, entry ≠ command) (history h))).
Proof.
  intros Hlimit. unfold update_history. by rewrite slice_to_nonneg.
Qed.

Lemma remove_dups_snoc (l : list pystr) command :
  remove_dups (l ++ [command])
  = filter (λ entry, entry ≠ command) (remove_dups l) ++ [command].
Proof.
  induction l as [|x l IH]; [done |].
  rewrite <- app_comm_cons. simpl. rewrite IH.
  destruct (decide_rel elem_of x (l ++ [command])) as [Hin | Hnotin];
    destruct (decide_rel elem_of x l) as [Hin' | Hnotin']; try done.
  - apply elem_of_app in Hin as [Hin | ->%list_elem_of_singleton]; [done |].
    by rewrite filter_cons_False by (by intros Hne; apply Hne).
  - exfalso. apply Hnotin, elem_of_app. by left.
  - rewrite filter_cons_True; [done |].
    intros ->. apply Hnotin, elem_of_app. right. by left.
Qed.

Lemma remove_dups_NoDup (l : list pystr) : NoDup l → remove_dups l = l.
Proof.
  induction 1 as [|x l Hnotin _ IH]; [done |]. simpl.
  destruct (decide_rel elem_of x l); [done | by rewrite IH].
Qed.

Lemma NoDup_reverse (l : list pystr) : NoDup l → NoDup (reverse l).
Proof. by rewrite reverse_Permutation. Qed.

Lemma most_recent_first_snoc (chronology : list pystr) command :
  most_recent_first (chronology ++ [command])
  = command
    :: filter (λ entry, entry ≠ command) (most_recent_first chronology).
Proof.
  unfold most_recent_first.
  by rewrite remove_dups_snoc, reverse_snoc, filter_reverse.
Qed.

Lemma most_recent_first_NoDup (chronology : list pystr) :
  NoDup (most_recent_first chronology).
Proof. apply NoDup_reverse, NoDup_remove_dups. Qed.

(** Cutting a duplicate-free list one entry past [n] before dropping the
    command loses nothing of the first [n] entries that remain. *)
Lemma take_filter_take (l : list pystr) command n :
  NoDup l →
  take n (filter (λ entry, entry ≠ command) (take (S n) l))
  = take n (filter (λ entry, entry ≠ command) l).
Proof.
  intros Hl. revert n.
  induction Hl as [|x l Hnotin Hl IH]; intros n; [done |].
  rewrite firstn_cons. destruct (decide (x = command)) as [-> | Hne].
  - rewrite !filter_cons_False by (by intros Hne; apply Hne).
    rewrite !filter_absent; [by rewrite take_take, Nat.min_id | done |].
    intros Hin. apply Hnotin.
    eapply elem_of_sublist; [done | apply sublist_take].
  - rewrite !filter_cons_True by done.
    destruct n as [|n]; [done |]. simpl. by rewrite IH.
Qed.

End UpdateMore.

(** X6: recording the same command twice in a row changes nothing the
    second time, for every limit that is not negative. *)
Theorem update_history_idempotent (h : HistoryRecord) (command : pystr)
    (limit : Z) :
  0 ≤ limit →
  update_history (update_history h command limit) command limit
  = update_history h command limit.
Proof.
  intros Hlimit. rewrite !update_history_nonneg by done. simpl.
  f_equal. destruct (Z.to_nat limit) as [|n]; [done |]. simpl.
  rewrite filter_cons_False by (by intros Hne; apply Hne).
  rewrite filter_take_absent by apply kept_absent.
  by rewrite take_take, Nat.min_id.
Qed.

Lemma update_history_idempotent_witness :
  let h := mkHistory (lit "ls") [lit "ls"; lit "pwd"; lit "cd"] in
  update_history (update_history h (lit "pwd") 2) (lit "pwd") 2
  = mkHistory (lit "pwd") [lit "pwd"; lit "ls"].
Proof.
  cbv zeta. rewrite update_history_idempotent by lia. reflexivity.
Defined.

(** X7: for every limit, negative ones included, each entry of the updated
    history is the command itself or an entry that was there before:
    [update_history] invents nothing. *)
Theorem update_history_entries_from (h : HistoryRecord)
    (command entry : pystr) (limit : Z) :
  entry ∈ history (update_history h command limit) →
  entry = command ∨ (entry ≠ command ∧ entry ∈ history h).
Proof.
  rewrite update_history_entries. intros Hin.
  eapply elem_of_sublist in Hin; [| apply slice_to_sublist].
  apply elem_of_cons in Hin as [-> | Hin]; [by left |].
  right. by apply list_elem_of_filter in Hin.
Qed.

Lemma update_history_entries_from_witness :
  lit "a" = lit "c"
  ∨ (lit "a" ≠ lit "c" ∧ lit "a" ∈ [lit "a"; lit "b"]).
Proof.
  apply (update_history_entries_from
           (mkHistory (lit "b") [lit "a"; lit "b"]) (lit "c") (lit "a") (-1)).
  compute_done.
Defined.

(** X8: a command that is not in the history goes to the front and the
    entries before it keep their order; with a limit of at least 1 only
    the entries past position [limit - 1] are dropped. *)
Theorem update_history_new_command (h : HistoryRecord) (command : pystr)
    (limit : Z) :
  1 ≤ limit → command ∉ history h →
  history (update_history h command limit)
  = command :: take (Z.to_nat (limit - 1)) (history h).
Proof.
  intros Hlimit Hnew. rewrite update_history_nonneg by lia. simpl.
  rewrite filter_absent by done.
  by replace (Z.to_nat limit) with (S (Z.to_nat (limit - 1))) by lia.
Qed.

Lemma update_history_new_command_witness :
  history (update_history (mkHistory (lit "ls") [lit "ls"; lit "pwd"])
             (lit "cd") 2)
  = [lit "cd"; lit "ls"].
Proof.
  rewrite update_history_new_command; [reflexivity | lia | compute_done].
Defined.

(** X9: repeating a command that is already in a duplicate-free history
    within the limit only reorders it: the updated history is a
    permutation of the old one, so nothing is dropped. *)
Theorem update_history_known_command (h : HistoryRecord) (command : pystr)
    (limit : Z) :
  NoDup (history h) → command ∈ history h →
  Z.of_nat (length (history h)) ≤ limit →
  history (update_history h command limit) ≡ₚ history h.
Proof.
  intros Hnodup Hin Hlen. rewrite update_history_nonneg by lia. simpl.
  assert (command :: filter (λ entry, entry ≠ command) (history h)
          ≡ₚ history h) as Hperm.
  { apply NoDup_Permutation; [by apply prepended_NoDup | done |].
    intros x. rewrite elem_of_cons, list_elem_of_filter.
    destruct (decide (x = command)) as [-> | Hne].
    - split; [done | by left].
    - split; [by intros [? | [_ ?]] | by right]. }
  rewrite take_ge; [done |].
  apply Permutation_length in Hperm. simpl in *. lia.
Qed.

Lemma update_history_known_command_witness :
  history (update_history (mkHistory (lit "ls") [lit "ls"; lit "pwd"])
             (lit "pwd") 2)
  ≡ₚ [lit "ls"; lit "pwd"].
Proof.
  apply (update_history_known_command
           (mkHistory (lit "ls") [lit "ls"; lit "pwd"]) (lit "pwd") 2);
    [compute_done | compute_done | simpl; lia].
Defined.

(** X10: after two different commands with a limit of at least 2, the
    history starts with the second and then the first, whatever the record
    held before. *)
Theorem update_history_recency (h : HistoryRecord) (first second : pystr)
    (limit : Z) :
  2 ≤ limit → first ≠ second →
  take 2
    (history (update_history (update_history h first limit) second limit))
  = [second; first].
Proof.
  intros Hlimit Hne. rewrite !update_history_nonneg by lia. simpl.
  replace (Z.to_nat limit) with (S (S (Z.to_nat (limit - 2)))) by lia.
  simpl. by rewrite filter_cons_True by done.
Qed.

Lemma update_history_recency_witness :
  take 2
    (history (update_history
                (update_history (mkHistory (lit "cd") [lit "cd"; lit "cd"])
                   (lit "ls") 5)
                (lit "pwd") 5))
  = [lit "pwd"; lit "ls"].
Proof. apply update_history_recency; [lia | discriminate]. Defined.

(** X11: starting from a record within the invariants, any sequence of
    updates with one limit that is not negative leaves exactly the [limit]
    most recent distinct commands, most recent first: the old history
    (oldest first) followed by the new commands, each kept at its latest
    occurrence, read backwards and cut at [limit]. *)
Theorem update_all_most_recent (limit : Z) (h : HistoryRecord)
    (commands : list pystr) :
  0 ≤ limit → history_invariant limit h →
  history (update_all limit h commands)
  = take (Z.to_nat limit)
      (most_recent_first (reverse (history h) ++ commands)).
Proof.
  intros Hlimit [Hlen Hnodup].
  induction commands as [|command commands IH] using rev_ind.
  - rewrite app_nil_r. unfold most_recent_first, update_all. simpl.
    rewrite remove_dups_NoDup by by apply NoDup_reverse.
    rewrite reverse_involutive, take_ge; [done | lia].
  - unfold update_all in *. rewrite foldl_snoc.
    rewrite update_history_entries, slice_to_nonneg by done.
    rewrite IH, app_assoc, most_recent_first_snoc.
    destruct (Z.to_nat limit) as [|n]; [done |]. simpl.
    by rewrite take_filter_take by apply most_recent_first_NoDup.
Qed.

Lemma update_all_most_recent_witness :
  history (update_all 3 (mkHistory (lit "ls") [lit "ls"; lit "cd"])
             [lit "pwd"; lit "ls"; lit "top"; lit "pwd"])
  = [lit "pwd"; lit "top"; lit "ls"].
Proof.
  rewrite update_all_most_recent;
    [reflexivity | lia | split; [simpl; lia | compute_done]].
Defined.


(** ** More on loading and saving *)

Section StoreMore.
Context `{PyLib}.
Implicit Types (w : World) (h : HistoryRecord).

Lemma py_str_strings (l : list pystr) : py_str <$> (JStr <$> l) = l.
Proof.
  induction l as [|s l IH]; [done |]. rewrite !fmap_cons. by rewrite IH.
Qed.

(** What was written is read back as it was. *)
Lemma normalised_history_to_json h :
  match history_to_json h with
  | JDict members => normalised members
  | _ => DEFAULT_HISTORY
  end = h.
Proof.
  destruct h as [last entries]. unfold history_to_json, normalised. simpl.
  rewrite py_str_strings. by destruct last.
Qed.

Lemma load_history_saved w h :
  history_file w = Present (Ok (history_to_json h)) →
  load_history w = (Ok h, w).
Proof.
  intros Hfile. rewrite (load_history_value w (history_to_json h)) by done.
  by rewrite normalised_history_to_json.
Qed.

Lemma dict_get_missing key members default :
  key ∉ members.*1 → dict_get key members default = default.
Proof.
  induction members as [|[k v] members IH]; [done |]. simpl.
  intros [Hne Hnot]%not_elem_of_cons.
  rewrite bool_decide_eq_false_2 by done. by apply IH.
Qed.

End StoreMore.

(** X12: when the directory can be made and the write succeeds,
    [save_history] returns and a following [load_history] gives back the
    very record that was saved. *)
Theorem save_load_round_trip `{PyLib} (h : HistoryRecord) (w : World) :
  mkdir_failure w = None → write_failure w = None →
  let w' := (save_history h w).2 in
  (save_history h w).1 = Ok () ∧ load_history w' = (Ok h, w').
Proof.
  intros Hmkdir Hwrite. unfold save_history. unfold_M.
  rewrite Hmkdir, Hwrite. simpl. split; [done |].
  by apply load_history_saved.
Qed.

Lemma save_load_round_trip_witness :
  let h := mkHistory (lit "ls -la") [lit "ls -la"; lit "cd /tmp"] in
  let w' := (save_history h calm_world).2 in
  (save_history h calm_world).1 = Ok ()
  ∧ @load_history reference_lib w' = (Ok h, w').
Proof.
  apply (@save_load_round_trip reference_lib); reflexivity.
Defined.

(** X13: [save_history] returns normally exactly when the directory can be
    made and the write either succeeds or fails with an [OSError]; in every
    other case the exception leaves it. *)
Theorem save_history_returns_iff (h : HistoryRecord) (w : World) :
  (save_history h w).1 = Ok ()
  ↔ mkdir_failure w = None ∧ write_failure_caught w.
Proof.
  split.
  - unfold save_history. unfold_M.
    destruct (mkdir_failure w) as [e|]; [done |].
    intros Hok. split; [done |]. intros e fs Hw. rewrite Hw in Hok.
    by destruct (caught_by [OSError] e).
  - intros [Hmkdir Hwrite]. by apply save_history_swallows.
Qed.

(** X14: [load_history] never touches the world, and an exception leaves
    it in exactly two cases: the existence check on the file, which stands
    before the [try], raised it; or it was raised while opening, reading or
    parsing the file and is neither a [json.JSONDecodeError] nor an
    [OSError]. *)
Theorem load_history_raises_only `{PyLib} (w : World) :
  (load_history w).2 = w
  ∧ ∀ e, (load_history w).1 = Raise e
         ↔ history_file w = Unsearchable e
           ∨ (history_file w = Present (Raise e)
              ∧ caught_by [JSONDecodeError; OSError] e = false).
Proof.
  split; [apply load_history_world |]. intros e.
  destruct (history_file w) as [|[data|e']|e'] eqn:Hfile.
  - rewrite load_history_absent by done. simpl.
    split; [done | by intros [? | [? _]]].
  - rewrite (load_history_value w data) by done. simpl.
    split; [done | by intros [? | [? _]]].
  - destruct (caught_by [JSONDecodeError; OSError] e') eqn:Hcaught.
    + rewrite (load_history_caught w e') by done. simpl.
      split; [done |]. intros [? | [[= ->] ?]]; [done | congruence].
    + rewrite (load_history_uncaught w e') by done. simpl. split.
      * intros [= <-]. by right.
      * by intros [? | [[= ->] _]].
  - rewrite (load_history_unsearchable w e') by done. simpl. split.
    + intros [= <-]. by left.
    + by intros [[= ->] | [? _]].
Qed.

(** X15: a history file that holds an object with neither a "history" nor
    a "last_command" member (the empty object, say) loads as the default
    empty record. *)
Theorem load_history_missing_keys `{PyLib} (w : World)
    (members : list (pystr * json)) :
  history_file w = Present (Ok (JDict members)) →
  lit "history" ∉ members.*1 → lit "last_command" ∉ members.*1 →
  load_history w = (Ok DEFAULT_HISTORY, w).
Proof.
  intros Hfile Hh Hl. rewrite (load_history_value w (JDict members)) by done.
  unfold normalised. by rewrite !dict_get_missing by done.
Qed.

Lemma load_history_missing_keys_witness :
  @load_history reference_lib empty_object_world
  = (Ok DEFAULT_HISTORY, empty_object_world).
Proof.
  apply (@load_history_missing_keys reference_lib empty_object_world []);
    [reflexivity | compute_done | compute_done].
Defined.

(** ** Whitespace and letter case *)

Section Strip.

Lemma forallb_Forall {A} (f : A → bool) (l : list A) :
  forallb f l = true ↔ Forall (λ x, f x = true) l.
Proof.
  induction l as [|x l IH]; simpl; [by split |].
  rewrite andb_true_iff, Forall_cons. by rewrite IH.
Qed.

Lemma lstrip_blank_app (pre s : pystr) :
  blank pre → lstrip (pre ++ s) = lstrip s.
Proof.
  induction 1 as [|c pre Hc _ IH]; [done |]. simpl. by rewrite Hc.
Qed.

Lemma lstrip_blank (s : pystr) : blank s → lstrip s = [].
Proof.
  intros Hs. rewrite <- (app_nil_r s). by rewrite lstrip_blank_app.
Qed.

Lemma lstrip_spaceless_app (s t : pystr) :
  spaceless s → s ≠ [] → lstrip (s ++ t) = s ++ t.
Proof.
  intros Hs Hne. destruct Hs as [|c s Hc Hs]; [done |]. simpl.
  by rewrite Hc.
Qed.

Lemma blank_reverse (s : pystr) : blank s → blank (reverse s).
Proof. unfold blank. by rewrite Forall_reverse. Qed.

Lemma spaceless_reverse (s : pystr) : spaceless s → spaceless (reverse s).
Proof. unfold spaceless. by rewrite Forall_reverse. Qed.

Lemma rstrip_blank_app (s post : pystr) :
  blank post → rstrip (s ++ post) = rstrip s.
Proof.
  intros Hpost. unfold rstrip. rewrite reverse_app.
  by rewrite lstrip_blank_app by by apply blank_reverse.
Qed.

Lemma rstrip_spaceless (s : pystr) : spaceless s → rstrip s = s.
Proof.
  intros Hs. unfold rstrip.
  destruct (decide (s = [])) as [-> | Hne]; [done |].
  rewrite <- (app_nil_r (reverse s)).
  rewrite lstrip_spaceless_app; [| by apply spaceless_reverse |].
  - by rewrite app_nil_r, reverse_involutive.
  - intros Hrev. apply Hne. apply (f_equal reverse) in Hrev.
    by rewrite reverse_involutive in Hrev.
Qed.

Lemma py_strip_blank (s : pystr) : blank s → py_strip s = [].
Proof. intros Hs. unfold py_strip. by rewrite lstrip_blank. Qed.

(** Whitespace around a word without whitespace is what [strip] removes. *)
Lemma py_strip_padded (pre word post : pystr) :
  blank pre → blank post → spaceless word →
  py_strip (pre ++ word ++ post) = word.
Proof.
  intros Hpre Hpost Hword. unfold py_strip.
  rewrite lstrip_blank_app by done.
  destruct (decide (word = [])) as [-> | Hne].
  - simpl. by rewrite lstrip_blank.
  - rewrite lstrip_spaceless_app by done.
    rewrite rstrip_blank_app by done. by apply rstrip_spaceless.
Qed.

Lemma ascii_lower_space (c : N) :
  py_isspace (ascii_lower c) = false → py_isspace c = false.
Proof.
  unfold ascii_lower.
  destruct ((65 <=? c) && (c <=? 90))%N eqn:Hupper; [| done].
  intros _. apply andb_true_iff in Hupper as [Hlo Hhi].
  apply N.leb_le in Hlo, Hhi. unfold py_isspace. cbv zeta.
  repeat match goal with
  | |- context [Z.leb ?a ?b] => destruct (Z.leb_spec a b); try lia
  | |- context [Z.eqb ?a ?b] => destruct (Z.eqb_spec a b); try lia
  end; reflexivity.
Qed.

Lemma ascii_lower_is_ascii (c : N) :
  is_ascii (ascii_lower c) = true → is_ascii c = true.
Proof.
  unfold ascii_lower, is_ascii.
  destruct ((65 <=? c) && (c <=? 90))%N eqn:Hupper; [| done].
  intros _. apply andb_true_iff in Hupper as [_ Hhi].
  apply N.leb_le in Hhi. apply N.ltb_lt. lia.
Qed.

(** A word whose ASCII lower-casing is free of whitespace is free of
    whitespace. *)
Lemma word_spaceless (word target : pystr) :
  ascii_lower <$> word = target →
  forallb (λ c, negb (py_isspace c)) target = true →
  spaceless word.
Proof.
  intros <- Hns. apply forallb_Forall in Hns.
  rewrite Forall_fmap in Hns. unfold spaceless.
  eapply Forall_impl; [exact Hns |]. intros c Hc. simpl in Hc.
  apply ascii_lower_space. by destruct (py_isspace (ascii_lower c)).
Qed.

End Strip.

(** A word that [str.lower] turns into an ASCII word is ASCII itself, so it
    is lower-cased letter by letter. *)
Lemma py_lower_variant `{PyLib} (word target : pystr) :
  ascii_lower <$> word = target →
  forallb is_ascii target = true →
  py_lower word = target.
Proof.
  intros <- Hascii. unfold py_lower.
  assert (forallb is_ascii word = true) as ->; [| done].
  apply forallb_Forall. apply forallb_Forall in Hascii.
  rewrite Forall_fmap in Hascii.
  eapply Forall_impl; [exact Hascii |]. intros c. apply ascii_lower_is_ascii.
Qed.


(** ** More on command execution *)

Lemma other_command_split `{PyLib} (command : pystr) :
  other_command command →
  (py_lower (py_strip command) ∉ [] :: clear_words)
  ∧ (py_lower (py_strip command) ∉ exit_words).
Proof.
  unfold other_command.
  intros [Hne [Hnc Hnx]%not_elem_of_app]%not_elem_of_cons.
  split; [by apply not_elem_of_cons | done].
Qed.

(** Enter the branch of [run_command] that calls the shell, the shell
    being the one [detect_shell] returned. *)
Ltac shell_branch Hshell Hother :=
  apply detect_shell_returns in Hshell;
  destruct (other_command_split _ Hother) as [?Hclear ?Hexit];
  unfold run_command; unfold_M; rewrite Hshell;
  rewrite !bool_decide_eq_false_2 by done.





(** X17: when the shell is detected and starting the child process raises
    an exception that derives from [Exception], [run_command] still
    returns, provided the directory can be made and a failed write is an
    [OSError]: the response has exit code -1, the text "Execution error: "
    followed by the exception's message as stderr, an empty stdout, and
    the command is recorded in the history all the same. *)
Theorem run_command_launch_failure `{PyLib} (command shell : pystr)
    (hist : HistoryRecord) (max_history : Z) (w : World) (e : exn)
    (fs : file_state) :
  other_command command →
  (detect_shell w).1 = Ok shell →
  subprocess_run w command shell (history_file w) = (Raise e, fs) →
  caught_by [Exception] e = true →
  mkdir_failure w = None → write_failure_caught w →
  ∃ response,
    (run_command command hist max_history w).1
    = Ok (response, update_history hist command max_history)
    ∧ response !! "stdout" = Some (VStr [])
    ∧ response !! "stderr"
      = Some (VStr (lit "Execution error: " ++ exn_msg e))
    ∧ response !! "exit_code" = Some (VInt (-1))
    ∧ response !! "history"
      = Some (VList (history (update_history hist command max_history))).
Proof.
  intros Hother Hshell Hrun Hcaught Hmkdir Hwrite.
  shell_branch Hshell Hother.
  rewrite Hrun. simpl. rewrite Hcaught. simpl. rewrite Hmkdir. simpl.
  destruct (write_failure w) as [[e' fs']|] eqn:Hw; simpl;
    [rewrite (Hwrite e' fs' Hw) |]; simpl; eexists; by repeat split.
Qed.

Lemma run_command_launch_failure_witness :
  ∃ response,
    (@run_command reference_lib (lit "ls") DEFAULT_HISTORY 100
       no_shell_world).1
    = Ok (response, update_history DEFAULT_HISTORY (lit "ls") 100)
    ∧ response !! "stdout" = Some (VStr [])
    ∧ response !! "stderr"
      = Some (VStr (lit "Execution error: No such file: /bin/sh"))
    ∧ response !! "exit_code" = Some (VInt (-1))
    ∧ response !! "history" = Some (VList [lit "ls"]).
Proof.
  apply (@run_command_launch_failure reference_lib (lit "ls")
           (lit "/bin/sh") DEFAULT_HISTORY 100 no_shell_world
           (mkExn FileNotFoundError (lit "No such file: /bin/sh")) Absent);
    [unfold other_command; compute_done | reflexivity | reflexivity
    | reflexivity | reflexivity |].
  by intros e fs.
Defined.

(** X18: an exception from the child process call that does not derive
    from [Exception] (a [KeyboardInterrupt]) leaves [run_command]: no
    response is built, the history is neither updated nor written, and
    nothing is printed. *)
Theorem run_command_interrupted `{PyLib} (command shell : pystr)
    (hist : HistoryRecord) (max_history : Z) (w : World) (e : exn)
    (fs : file_state) :
  other_command command →
  (detect_shell w).1 = Ok shell →
  subprocess_run w command shell (history_file w) = (Raise e, fs) →
  caught_by [Exception] e = false →
  let r := run_command command hist max_history w in
  r.1 = Raise e ∧ history_file r.2 = fs ∧ stdout r.2 = stdout w.
Proof.
  intros Hother Hshell Hrun Hcaught. shell_branch Hshell Hother.
  rewrite Hrun. simpl. by rewrite Hcaught.
Qed.

Lemma run_command_interrupted_witness :
  let r := @run_command reference_lib (lit "sleep 60") DEFAULT_HISTORY 100
             interrupted_world in
  r.1 = Raise (mkExn KeyboardInterrupt [])
  ∧ history_file r.2 = Absent ∧ stdout r.2 = [].
Proof.
  apply (@run_command_interrupted reference_lib (lit "sleep 60")
           (lit "/bin/sh") DEFAULT_HISTORY 100 interrupted_world
           (mkExn KeyboardInterrupt []) Absent);
    [unfold other_command; compute_done | reflexivity | reflexivity
    | reflexivity].
Defined.

(** X19: when the history write fails with an [OSError], [run_command]
    still returns a response, and that response reports the updated
    history although the file does not hold it: the file is left as the
    failed write left it. *)
Theorem run_command_unsaved_history `{PyLib} (command shell : pystr)
    (hist : HistoryRecord) (max_history : Z) (w : World) (e : exn)
    (fs : file_state) :
  other_command command →
  (detect_shell w).1 = Ok shell →
  launch_failure_caught w command →
  mkdir_failure w = None →
  write_failure w = Some (e, fs) → caught_by [OSError] e = true →
  let r := run_command command hist max_history w in
  ∃ response,
    r.1 = Ok (response, update_history hist command max_history)
    ∧ response !! "history"
      = Some (VList (history (update_history hist command max_history)))
    ∧ response !! "last_command" = Some (VStr command)
    ∧ history_file r.2 = fs.
Proof.
  intros Hother Hshell Hlaunch Hmkdir Hwrite Hcaught.
  specialize (Hlaunch shell). shell_branch Hshell Hother.
  destruct (subprocess_run w command shell (history_file w))
    as [[completed|e'] fs']; simpl.
  2: rewrite (Hlaunch e' fs') by (by rewrite ?Hshell); simpl.
  all: rewrite Hmkdir; simpl; rewrite Hwrite; simpl; rewrite Hcaught; simpl.
  all: eexists; by repeat split.
Qed.

Lemma run_command_unsaved_history_witness :
  let r := @run_command reference_lib (lit "ls") DEFAULT_HISTORY 100
             full_disk_world in
  ∃ response,
    r.1 = Ok (response, update_history DEFAULT_HISTORY (lit "ls") 100)
    ∧ response !! "history" = Some (VList [lit "ls"])
    ∧ response !! "last_command" = Some (VStr (lit "ls"))
    ∧ history_file r.2
      = Present (Raise (mkExn JSONDecodeError (lit "Expecting value"))).
Proof.
  apply (@run_command_unsaved_history reference_lib (lit "ls")
           (lit "/bin/bash") DEFAULT_HISTORY 100 full_disk_world
           (mkExn OSError (lit "No space left on device")));
    [unfold other_command; compute_done | reflexivity
    | by intros shell e fs | reflexivity | reflexivity | reflexivity].
Defined.

(** X20: once the shell is detected, the five words are recognised
    whatever the case of their ASCII letters and whatever whitespace
    surrounds them: a command made of whitespace, a case variant of
    "clear" or "cls", and whitespace is answered with the action "clear",
    a variant of "exit" or "quit" with the action "exit", without any
    process and with the history untouched. *)
Theorem run_command_padded_pseudo_command `{PyLib}
    (pre word post shell : pystr) (hist : HistoryRecord) (max_history : Z)
    (w : World) :
  blank pre → blank post →
  (detect_shell w).1 = Ok shell →
  let command := pre ++ word ++ post in
  let response := initial_response command shell hist in
  ((ascii_lower <$> word) ∈ clear_words →
   run_command command hist max_history w
   = (Ok (<["action" := VStr (lit "clear")]> response, hist), w))
  ∧ ((ascii_lower <$> word) ∈ exit_words →
     run_command command hist max_history w
     = (Ok (<["action" := VStr (lit "exit")]> response, hist), w)).
Proof.
  intros Hpre Hpost Hshell command response. subst command response.
  assert (∀ target, ascii_lower <$> word = target →
            forallb is_ascii target = true →
            forallb (λ c, negb (py_isspace c)) target = true →
            py_lower (py_strip (pre ++ word ++ post)) = target) as Hclass.
  { intros target Hword Hascii Hns.
    rewrite py_strip_padded by eauto using word_spaceless.
    by apply py_lower_variant. }
  split; intros Hin.
  - apply run_command_clear; [done |]. unfold clear_words in *.
    apply elem_of_cons in Hin as [Hin | Hin%list_elem_of_singleton];
      rewrite (Hclass _ Hin) by done; compute_done.
  - apply run_command_exit; [done |]. unfold exit_words in *.
    apply elem_of_cons in Hin as [Hin | Hin%list_elem_of_singleton];
      rewrite (Hclass _ Hin) by done; compute_done.
Qed.

Lemma run_command_padded_pseudo_command_witness :
  @run_command reference_lib (lit "  QuIt ") DEFAULT_HISTORY 100 calm_world
  = (Ok (<["action" := VStr (lit "exit")]>
           (initial_response (lit "  QuIt ") (lit "/bin/bash")
              DEFAULT_HISTORY),
         DEFAULT_HISTORY), calm_world).
Proof.
  apply (@run_command_padded_pseudo_command reference_lib
           (lit "  ") (lit "QuIt") (lit " ") (lit "/bin/bash")
           DEFAULT_HISTORY 100 calm_world);
    unfold blank; try reflexivity; compute_done.
Defined.

(** X30: once the shell is detected, a command whose stripped, lower-cased
    form is empty, "clear", "cls", "exit" or "quit" is answered at once:
    [run_command] returns a response with exit code 0 and empty stdout and
    stderr, starts no process, and leaves the history record, the history
    file and everything else as they were. And for every command, when no
    [subprocess.run] call was made, nothing was changed: the update and
    the write happen only after the shell has been invoked. *)
Theorem run_command_short_circuit `{PyLib} (command shell : pystr)
    (hist : HistoryRecord) (max_history : Z) (w : World) :
  (detect_shell w).1 = Ok shell →
  let r := run_command command hist max_history w in
  (py_lower (py_strip command) ∈ [] :: clear_words ++ exit_words →
   ∃ response, r = (Ok (response, hist), w) ∧ quiet response)
  ∧ (spawned r.2 = spawned w →
     r.2 = w ∧ ∀ response h', r.1 = Ok (response, h') → h' = hist).
Proof.
  intros Hshell r. subst r. split.
  - intros Hin. by apply (run_command_five_words _ _ _ _ shell).
  - destruct (decide (py_lower (py_strip command)
                      ∈ [] :: clear_words ++ exit_words)) as [Hin|Hother].
    + destruct (run_command_five_words command hist max_history w shell
                  Hshell Hin) as (response & -> & _).
      by unchanged.
    + destruct (other_command_split _ Hother) as [Hclear Hexit].
      destruct (run_command_other command hist max_history w shell
                  Hshell Hclear Hexit) as [Hsp _].
      rewrite Hsp. intros Heq. apply (f_equal length) in Heq.
      rewrite length_app in Heq. simpl in Heq. lia.
Qed.

Lemma run_command_short_circuit_witness :
  (@run_command reference_lib (lit " QUIT ") DEFAULT_HISTORY 100
     calm_world).2 = calm_world
  ∧ ∃ response,
      @run_command reference_lib (lit "Cls") DEFAULT_HISTORY 100 calm_world
      = (Ok (response, DEFAULT_HISTORY), calm_world)
      ∧ quiet response.
Proof.
  split.
  - apply (@run_command_short_circuit reference_lib (lit " QUIT ")
             (lit "/bin/bash") DEFAULT_HISTORY 100 calm_world);
      reflexivity.
  - apply (@run_command_short_circuit reference_lib (lit "Cls")
             (lit "/bin/bash") DEFAULT_HISTORY 100 calm_world);
      [reflexivity | compute_done].
Defined.

(** ** More on the request handler *)

Lemma run_command_blank `{PyLib} (hist : HistoryRecord) (max_history : Z)
    (w : World) (shell : pystr) :
  (detect_shell w).1 = Ok shell →
  run_command [] hist max_history w
  = (Ok (initial_response [] shell hist, hist), w).
Proof. intros Hshell. by apply run_command_empty. Qed.







(** X22: with neither flag and a history that loads, [main] returns 1 and
    prints the one dictionary of type "error" with exit code 1; a command
    given with [--command] or [--encoded] is not decoded and not run. *)
Theorem main_no_action_request `{PyLib} (args : Args) (w : World)
    (hist : HistoryRecord) :
  load_history w = (Ok hist, w) →
  args_history args = false → args_run args = false →
  let r := main args w in
  r.1 = Ok 1
  ∧ stdout r.2 = stdout w ++ [Printed error_payload]
  ∧ spawned r.2 = spawned w
  ∧ history_file r.2 = history_file w.
Proof.
  intros Hload Hhistory Hrun. cbv zeta.
  by rewrite (main_no_action args w hist).
Qed.

Lemma main_no_action_request_witness :
  let r := @main reference_lib
             (mkArgs false None (Some (lit "ls")) false 100) calm_world in
  r.1 = Ok 1
  ∧ stdout r.2 = [Printed error_payload]
  ∧ spawned r.2 = []
  ∧ history_file r.2 = Absent.
Proof.
  apply (@main_no_action_request reference_lib
           (mkArgs false None (Some (lit "ls")) false 100) calm_world
           DEFAULT_HISTORY);
    reflexivity.
Defined.

(** X23: whenever [main] returns, the status it returns is 1 exactly when
    neither flag was given and 0 exactly when one was; it returns no other
    status. *)
Theorem main_return_code_iff `{PyLib} (args : Args) (w : World) (code : Z) :
  (main args w).1 = Ok code →
  (code = 1 ↔ args_history args = false ∧ args_run args = false)
  ∧ (code = 0 ↔ args_history args = true ∨ args_run args = true).
Proof.
  intros Hmain. destruct (main_return_code args w code Hmain)
    as [(-> & Hh & Hr) | [-> Hflags]].
  - rewrite Hh, Hr. split; split; try done. by intros [?|?].
  - split; split; try done. intros [Hh Hr]. rewrite Hh, Hr in Hflags.
    by destruct Hflags.
Qed.

Lemma main_return_code_iff_witness :
  (0 = 1 ↔ false = false ∧ true = false)
  ∧ (0 = 0 ↔ false = true ∨ true = true).
Proof.
  apply (@main_return_code_iff reference_lib
           (mkArgs true None (Some (lit "ls")) false 100) calm_world 0).
  reflexivity.
Defined.


(** X25: a run request whose history loads, whose shell is detected and
    whose decoded command is empty or whitespace only is answered like the
    empty command: no process is started and the history and its file
    stay as they are, and when the response (the empty command, exit code
    0, no action, the loaded history and the shell) can be encoded, [main]
    prints it and returns 0. *)
Theorem main_blank_command `{PyLib} (args : Args) (w : World)
    (hist : HistoryRecord) (decoded shell : pystr) :
  load_history w = (Ok hist, w) →
  (detect_shell w).1 = Ok shell →
  args_history args = false → args_run args = true →
  decode_command (args_encoded args) (args_command args) = Ok decoded →
  blank decoded →
  let response := initial_response [] shell hist in
  spawned (main args w).2 = spawned w
  ∧ history_file (main args w).2 = history_file w
  ∧ (payload_encodable response = true →
     main args w
     = (Ok 0, set_stdout (stdout w ++ [Printed response]) w)).
Proof.
  intros Hload Hshell Hhistory Hrun Hdecode Hblank response.
  rewrite (main_run_mode args w hist decoded) by done.
  rewrite py_strip_blank by done.
  rewrite (run_command_blank _ _ _ shell) by done. cbv beta iota.
  subst response.
  destruct (reply_frame 0 (initial_response [] shell hist) w) as [-> ->].
  split; [reflexivity |]. split; [reflexivity |]. intros Hp.
  rewrite reply_printed by exact Hp. reflexivity.
Qed.

Lemma main_blank_command_witness :
  @main reference_lib (mkArgs true None (Some (lit "   ")) false 100)
    calm_world
  = (Ok 0,
     set_stdout
       [Printed (initial_response [] (lit "/bin/bash") DEFAULT_HISTORY)]
       calm_world).
Proof.
  apply (@main_blank_command reference_lib
           (mkArgs true None (Some (lit "   ")) false 100) calm_world
           DEFAULT_HISTORY (lit "   ") (lit "/bin/bash"));
    try reflexivity.
  unfold blank. compute_done.
Defined.

(** X26: for a run request whose history loads and whose shell is
    detected, a base64 payload that cannot be decoded is answered like the
    empty command, and a raw command given beside it is not used in its
    place: no process is started, the history file stays as it is, and
    when the response for the empty command can be encoded, [main] prints
    it and returns 0. *)
Theorem main_undecodable_command `{PyLib} (args : Args) (w : World)
    (hist : HistoryRecord) (payload shell : pystr) (e : exn) :
  load_history w = (Ok hist, w) →
  (detect_shell w).1 = Ok shell →
  args_history args = false → args_run args = true →
  args_encoded args = Some payload → payload ≠ [] →
  b64decode payload = Raise e →
  issubclass (exn_class e) ValueError = true →
  let response := initial_response [] shell hist in
  spawned (main args w).2 = spawned w
  ∧ history_file (main args w).2 = history_file w
  ∧ (payload_encodable response = true →
     main args w
     = (Ok 0, set_stdout (stdout w ++ [Printed response]) w)).
Proof.
  intros Hload Hshell Hhistory Hrun Henc Hne Hraise Hclass response.
  assert (decode_command (args_encoded args) (args_command args) = Ok [])
    as Hdecode.
  { rewrite Henc. unfold decode_command.
    destruct payload as [|c payload]; [done |].
    simpl. unfold try_except, mbind, res_bind. rewrite Hraise.
    by rewrite value_error_caught. }
  rewrite (main_run_mode args w hist []) by done.
  change (py_strip []) with (@nil N).
  rewrite (run_command_blank _ _ _ shell) by done. cbv beta iota.
  subst response.
  destruct (reply_frame 0 (initial_response [] shell hist) w) as [-> ->].
  split; [reflexivity |]. split; [reflexivity |]. intros Hp.
  rewrite reply_printed by exact Hp. reflexivity.
Qed.

Lemma main_undecodable_command_witness :
  @main reference_lib
    (mkArgs true (Some (lit "bHM")) (Some (lit "ls")) false 100) calm_world
  = (Ok 0,
     set_stdout
       [Printed (initial_response [] (lit "/bin/bash") DEFAULT_HISTORY)]
       calm_world).
Proof.
  apply (@main_undecodable_command reference_lib
           (mkArgs true (Some (lit "bHM")) (Some (lit "ls")) false 100)
           calm_world DEFAULT_HISTORY (lit "bHM") (lit "/bin/bash")
           (mkExn BinasciiError (lit "Incorrect padding")));
    try reflexivity.
  discriminate.
Defined.

(** X27: the history limit is clamped to 1: with [--max-history] at 1 or
    below (zero and negative values included), a command that is run is
    the one and only entry of the history in the response. *)
Theorem main_clamps_limit `{PyLib} (args : Args) (w : World)
    (hist : HistoryRecord) (decoded : pystr) (code : Z) :
  load_history w = (Ok hist, w) →
  args_history args = false → args_run args = true →
  decode_command (args_encoded args) (args_command args) = Ok decoded →
  other_command (py_strip decoded) →
  args_max_history args ≤ 1 →
  (main args w).1 = Ok code →
  ∃ response,
    stdout (main args w).2 = stdout w ++ [Printed response]
    ∧ response !! "history" = Some (VList [py_strip decoded])
    ∧ response !! "last_command" = Some (VStr (py_strip decoded)).
Proof.
  intros Hload Hhistory Hrun Hdecode Hother Hmax.
  rewrite (main_run_mode args w hist decoded) by done.
  replace (Z.max 1 (args_max_history args)) with 1 by lia.
  destruct (other_command_split _ Hother) as [Hclear Hexit].
  destruct (detect_shell w).1 as [shell|e] eqn:Hshell.
  2: { by rewrite (run_command_shell_raises _ _ _ _ e). }
  pose proof (run_command_other (py_strip decoded) hist 1 w shell
                Hshell Hclear Hexit) as [_ Hresponse].
  pose proof (run_command_stdout (py_strip decoded) hist 1 w) as Hout.
  destruct (run_command (py_strip decoded) hist 1 w)
    as [[[response h']|e] w']; simpl in *; [| done].
  intros (_ & _ & ->)%reply_returns.
  destruct (Hresponse response h' eq_refl)
    as (-> & _ & _ & Hentries & Hlast).
  exists response. simpl. by rewrite Hout.
Qed.

Lemma main_clamps_limit_witness :
  ∃ response,
    stdout (@main reference_lib
              (mkArgs true None (Some (lit " ls ")) false (-5))
              string_history_world).2
    = [Printed response]
    ∧ response !! "history" = Some (VList [lit "ls"])
    ∧ response !! "last_command" = Some (VStr (lit "ls")).
Proof.
  apply (@main_clamps_limit reference_lib
           (mkArgs true None (Some (lit " ls ")) false (-5))
           string_history_world (mkHistory (lit "pwd") []) (lit " ls ") 0);
    try reflexivity.
  - unfold other_command. compute_done.
  - simpl. lia.
Defined.



